(** * pymed: extraction helpers and article records

    A shallow embedding of [pymed/helpers.py] and [pymed/article.py]
    together with the properties of the extraction and sectioning
    engine.

    Conventions of the embedding.
    - A Python [str] is a [string]; a character is a code point below
      256.  [None] is the [None] of an [option].
    - An [xml.etree.ElementTree.Element] is a value of [Element] with
      its [tag], [attrib], [text], [tail] and children.  Comments and
      processing instructions (whose tag is not a string) are dropped
      by the default parser and are not represented.
    - A selector string is given in tokenised form as a list of
      [step]s; the tokenisation of each literal of the source is noted
      where it is used.
    - Code that may raise returns a [result]; [try]/[except Exception]
      is [try_except]. *)

From Stdlib Require Import List String Ascii ZArith Bool Lia Arith.
Import ListNotations.

Set Warnings "-register-all".

Open Scope list_scope.
Open Scope string_scope.

(* ================================================================= *)
(** ** Exceptions *)

Inductive exn : Type :=
| TypeError
| ValueError
| AttributeError.

Inductive result (A : Type) : Type :=
| Ok (a : A)
| Raise (e : exn).

Arguments Ok {A} a.
Arguments Raise {A} e.

Definition bind {A B : Type} (m : result A) (k : A -> result B) : result B :=
  match m with
  | Ok a => k a
  | Raise e => Raise e
  end.

Notation "x <- m ;; k" := (bind m (fun x => k))
  (at level 61, m at next level, right associativity).

(** [try: body except Exception as e: handler e]. *)
Definition try_except {A : Type} (body : result A) (handler : exn -> result A)
  : result A :=
  match body with
  | Ok a => Ok a
  | Raise e => handler e
  end.

Definition raises {A : Type} (m : result A) : Prop :=
  exists e, m = Raise e.

(* ================================================================= *)
(** ** Python strings *)

Module PyStr.

Definition nl : string := String (ascii_of_nat 10) EmptyString.

Definition code (c : ascii) : nat := nat_of_ascii c.

(** [str.isspace] on one character, for code points below 256. *)
Definition isspace (c : ascii) : bool :=
  let n := code c in
  (((9 <=? n) && (n <=? 13)) || ((28 <=? n) && (n <=? 32))
   || (n =? 133) || (n =? 160))%nat.

(** [str.lower] on one character, for code points below 256. *)
Definition lower_char (c : ascii) : ascii :=
  let n := code c in
  if (((65 <=? n) && (n <=? 90))
      || ((192 <=? n) && (n <=? 222) && negb (n =? 215)))%nat
  then ascii_of_nat (n + 32)
  else c.

Fixpoint lower (s : string) : string :=
  match s with
  | EmptyString => EmptyString
  | String c s' => String (lower_char c) (lower s')
  end.

Fixpoint lstrip (s : string) : string :=
  match s with
  | EmptyString => EmptyString
  | String c s' => if isspace c then lstrip s' else s
  end.

Fixpoint rstrip (s : string) : string :=
  match s with
  | EmptyString => EmptyString
  | String c s' =>
      match rstrip s' with
      | EmptyString => if isspace c then EmptyString else String c EmptyString
      | r => String c r
      end
  end.

(** [s.strip()] *)
Definition strip (s : string) : string := rstrip (lstrip s).

(** [needle in hay] *)
Fixpoint contains (needle hay : string) : bool :=
  prefix needle hay
  || match hay with
     | EmptyString => false
     | String _ hay' => contains needle hay'
     end.

(** [sep.join(parts)] *)
Definition join (sep : string) (parts : list string) : string :=
  String.concat sep parts.

(** [s.endswith(suffix)] *)
Fixpoint endswith (s suffix : string) : bool :=
  String.eqb s suffix
  || match s with
     | EmptyString => false
     | String _ s' => endswith s' suffix
     end.

End PyStr.

(* ================================================================= *)
(** ** ElementTree *)

Module ET.

Inductive Element : Type :=
| mkElement (tag : string) (attrib : list (string * string))
            (text : option string) (children : list Element)
            (tail : option string).

Definition tag (e : Element) : string :=
  match e with mkElement t _ _ _ _ => t end.
Definition attrib (e : Element) : list (string * string) :=
  match e with mkElement _ a _ _ _ => a end.
Definition text (e : Element) : option string :=
  match e with mkElement _ _ t _ _ => t end.
Definition children (e : Element) : list Element :=
  match e with mkElement _ _ _ c _ => c end.
Definition tail (e : Element) : option string :=
  match e with mkElement _ _ _ _ t => t end.

(** [elem.get(key)]; [attrib] is a dictionary, its keys are distinct
    and the list is read by first occurrence. *)
Fixpoint lookup (key : string) (a : list (string * string)) : option string :=
  match a with
  | [] => None
  | (k, v) :: a' => if String.eqb k key then Some v else lookup key a'
  end.

Definition get (e : Element) (key : string) : option string :=
  lookup key (attrib e).

(** [elem.iter(tag)]: the element itself when its tag matches, then
    its descendants, in document order. *)
Fixpoint iter (t : string) (e : Element) : list Element :=
  match e with
  | mkElement tg _ _ cs _ =>
      ((if String.eqb tg t then [e] else []) ++ flat_map (iter t) cs)%list
  end.

(** The [if t: yield t] of [itertext]. *)
Definition fragment (t : option string) : list string :=
  match t with
  | Some (String c s) => [String c s]
  | _ => []
  end.

(** [elem.itertext()]: own text, then for every child its inner
    text followed by its tail. *)
Fixpoint itertext (e : Element) : list string :=
  match e with
  | mkElement _ _ tx cs _ =>
      (fragment tx
       ++ flat_map (fun c => itertext c ++ fragment (tail c)) cs)%list
  end.

(** Tokens of an ElementPath selector, as far as the sources use
    them: [.], [tag], [//tag] and [[@key='value']]. *)
Inductive step : Type :=
| Self
| Child (t : string)
| Descendant (t : string)
| AttrEq (key value : string).

Definition path : Type := list step.

Definition opt_eqb (a b : option string) : bool :=
  match a, b with
  | Some x, Some y => String.eqb x y
  | None, None => true
  | _, _ => false
  end.

(** One compiled selector applied to the current result set. *)
Definition select (s : step) (result : list Element) : list Element :=
  match s with
  | Self => result
  | Child t =>
      flat_map (fun elem => filter (fun e => String.eqb (tag e) t)
                                   (children elem)) result
  | Descendant t =>
      flat_map (fun elem => flat_map (iter t) (children elem)) result
  | AttrEq key value =>
      filter (fun elem => opt_eqb (get elem key) (Some value)) result
  end.

(** [elem.findall(path)] *)
Definition findall (elem : Element) (p : path) : list Element :=
  fold_left (fun result s => select s result) p [elem].

(** [elem.find(path)] *)
Definition find (elem : Element) (p : path) : option Element :=
  hd_error (findall elem p).

(** [elem.findtext(path)] with its default [None]: the text of the
    first match, the empty string when that text is [None]. *)
Definition findtext (elem : Element) (p : path) : option string :=
  match find elem p with
  | Some e => match text e with
              | Some s => Some s
              | None => Some EmptyString
              end
  | None => None
  end.

End ET.

Import PyStr ET.

(* ================================================================= *)
(** ** Built-ins used by the date resolvers *)

Module PyInt.

Open Scope Z_scope.

(** White space skipped by [int(str)] around the number. *)
Definition isspace (c : ascii) : bool :=
  let n := code c in
  (((9 <=? n) && (n <=? 13)) || (n =? 32) || (n =? 133) || (n =? 160))%nat.

Definition is_digit (c : ascii) : bool :=
  ((48 <=? code c) && (code c <=? 57))%nat.

Definition digit (c : ascii) : Z := Z.of_nat (code c) - 48.

Fixpoint lskip (s : string) : string :=
  match s with
  | EmptyString => EmptyString
  | String c s' => if isspace c then lskip s' else s
  end.

Fixpoint rskip (s : string) : string :=
  match s with
  | EmptyString => EmptyString
  | String c s' =>
      match rskip s' with
      | EmptyString => if isspace c then EmptyString else String c EmptyString
      | r => String c r
      end
  end.

(** Decimal digits, single underscores allowed between two digits.
    [after_digit] tells whether the previous character was a digit. *)
Fixpoint digits (acc : Z) (after_digit : bool) (s : string) : option Z :=
  match s with
  | EmptyString => if after_digit then Some acc else None
  | String c s' =>
      if is_digit c then digits (10 * acc + digit c) true s'
      else if Ascii.eqb c "_"%char
           then if after_digit then digits acc false s' else None
           else None
  end.

Definition of_string (s : string) : option Z :=
  match rskip (lskip s) with
  | String "+"%char r => digits 0 false r
  | String "-"%char r => option_map Z.opp (digits 0 false r)
  | r => digits 0 false r
  end.

(** [int(x)] for [x] a string or [None]: [TypeError] on [None],
    [ValueError] on a string that is not a base-10 literal.  (The
    interpreter's cap on the number of digits is not represented.) *)
Definition int (x : option string) : result Z :=
  match x with
  | None => Raise TypeError
  | Some s => match of_string s with
              | Some z => Ok z
              | None => Raise ValueError
              end
  end.

End PyInt.

Module PyDate.

Open Scope Z_scope.

Record date : Type := mkDate { year : Z; month : Z; day : Z }.

Definition is_leap (y : Z) : bool :=
  (y mod 4 =? 0) && (negb (y mod 100 =? 0) || (y mod 400 =? 0)).

Definition days_in_month (y m : Z) : Z :=
  if m =? 2 then (if is_leap y then 29 else 28)
  else if (m =? 4) || (m =? 6) || (m =? 9) || (m =? 11) then 30
  else 31.

Definition valid (y m d : Z) : bool :=
  (1 <=? y) && (y <=? 9999) && (1 <=? m) && (m <=? 12)
  && (1 <=? d) && (d <=? days_in_month y m).

(** [datetime.date(year=y, month=m, day=d)]; every rejection is an
    exception below [Exception], represented by [ValueError]. *)
Definition new (y m d : Z) : result date :=
  if valid y m d then Ok (mkDate y m d) else Raise ValueError.

End PyDate.

(* ================================================================= *)
(** ** pymed/helpers.py *)

Module Helpers.

(** The loop of [range(start, stop, step)] for a positive step. *)
Fixpoint range_up (fuel : nat) (index stop step : Z) : list Z :=
  match fuel with
  | O => []
  | S fuel' =>
      if (index <? stop)%Z
      then index :: range_up fuel' (index + step)%Z stop step
      else []
  end.

(** The same for a negative step. *)
Fixpoint range_down (fuel : nat) (index stop step : Z) : list Z :=
  match fuel with
  | O => []
  | S fuel' =>
      if (stop <? index)%Z
      then index :: range_down fuel' (index + step)%Z stop step
      else []
  end.

(** [range(start, stop, step)], [ValueError] when [step] is zero.
    The fuel is the distance between the bounds, which a step of
    absolute value at least one covers. *)
Definition py_range (start stop step : Z) : result (list Z) :=
  if (step =? 0)%Z then Raise ValueError
  else if (0 <? step)%Z
       then Ok (range_up (Z.to_nat (stop - start)) start stop step)
       else Ok (range_down (Z.to_nat (start - stop)) start stop step).

(** A slice bound brought into [0, len]. *)
Definition slice_bound (len i : Z) : Z :=
  if (i <? 0)%Z then Z.max 0 (i + len) else Z.min i len.

(** [l[lo:hi]] *)
Definition py_slice {A : Type} (l : list A) (lo hi : Z) : list A :=
  let len := Z.of_nat (List.length l) in
  let lo' := slice_bound len lo in
  let hi' := slice_bound len hi in
  firstn (Z.to_nat (hi' - lo')) (skipn (Z.to_nat lo') l).

(** [batches(iterable, n)]: the values the generator yields, or the
    exception raised when it is first advanced. *)
Definition batches {A : Type} (iterable : list A) (n : Z)
  : result (list (list A)) :=
  let length := Z.of_nat (List.length iterable) in
  indices <- py_range 0 length n ;;
  Ok (map (fun index =>
             py_slice iterable index (Z.min (index + n) length))
          indices).

(** [[sub.text for sub in result if sub.text is not None]] *)
Fixpoint texts_not_None (result : list Element) : list string :=
  match result with
  | [] => []
  | sub :: rest =>
      match text sub with
      | Some t => t :: texts_not_None rest
      | None => texts_not_None rest
      end
  end.

Definition getContent (element : Element) (path : path)
           (default : option string) (separator : string) : option string :=
  let result := findall element path in
  if (List.length result =? 0)%nat then default
  else Some (join separator (texts_not_None result)).

(** [" ".join(subtext.strip() for subtext in node.itertext())] *)
Definition joined_text (node : Element) : string :=
  join " " (map strip (itertext node)).

(** What one section adds in [getAbstract] and [getBody]: its title
    when it has one, then its direct paragraphs. *)
Definition flatten_sec (sep : string) (ret_str : string) (sec : Element)
  : string :=
  let ret_str :=
    match find sec [Child "title"] with
    | Some title => ret_str ++ joined_text title ++ ": "
    | None => ret_str
    end in
  match find sec [Child "p"] with
  | Some _ =>
      fold_left
        (fun ret_str paragraph => ret_str ++ joined_text paragraph ++ sep)
        (findall sec [Child "p"]) ret_str
  | None => ret_str
  end.

(** What one matched element adds: all its sections when it has a
    [sec] child, its children one by one otherwise. *)
Definition flatten_step (sep : string) (ret_str : string)
           (top_level : Element) : string :=
  match find top_level [Child "sec"] with
  | Some _ =>
      fold_left (flatten_sec sep)
                (findall top_level [Self; Descendant "sec"]) ret_str
  | None =>
      fold_left
        (fun ret_str sub => ret_str ++ joined_text sub ++ sep)
        (children top_level) ret_str
  end.

(** The walk shared in shape by [getAbstract] and [getBody]; they
    differ in the separator appended after a paragraph. *)
Definition flatten (element : Element) (path : path) (sep : string) : string :=
  fold_left (flatten_step sep) (findall element path) EmptyString.

Definition getAbstract (element : Element) (path : path)
           (default : option string) : option string :=
  let ret_str := flatten element path nl in
  if (String.length ret_str =? 0)%nat then default else Some ret_str.

Definition getBody (element : Element) (path : path)
           (default : option string) : option string :=
  let ret_str := flatten element path (nl ++ nl) in
  if (String.length ret_str =? 0)%nat then default else Some ret_str.

(** What one section adds to the bucket of [section] in [getSection].
    The test reads [sec.findtext('title')]; its [None] case cannot
    occur once [sec.find("title")] has succeeded. *)
Definition section_step (section : string) (ret_str : string) (sec : Element)
  : string :=
  match find sec [Child "title"], findtext sec [Child "title"] with
  | Some title, Some title_text =>
      if contains section (lower title_text)
      then
        let ret_str := ret_str ++ joined_text title ++ ": " in
        match find sec [Self; Descendant "p"] with
        | Some _ =>
            fold_left
              (fun ret_str paragraph =>
                 ret_str ++ joined_text paragraph ++ nl ++ nl)
              (findall sec [Self; Descendant "p"]) ret_str
        | None => ret_str
        end
      else ret_str
  | _, _ => ret_str
  end.

Definition getSection (element : Element) (path : path) (section : string)
           (default : option string) : option string :=
  let ret_str := fold_left (section_step section) (findall element path) EmptyString in
  if (String.length ret_str =? 0)%nat then default else Some ret_str.

Definition getBodySections (element : Element) (path : path)
           (default : option string)
  : option string * option string * option string * option string
    * option string :=
  let introductionStr := getSection element path "introduction" default in
  let methodsStr := getSection element path "methods" default in
  let resultsStr := getSection element path "results" default in
  let discussionStr := getSection element path "discussion" default in
  let conclusionStr := getSection element path "conclusion" default in
  (introductionStr, methodsStr, resultsStr, discussionStr, conclusionStr).

End Helpers.

(* ================================================================= *)
(** ** pymed/article.py *)

(** [x is not None] *)
Definition is_not_None {A : Type} (x : option A) : bool :=
  match x with
  | Some _ => true
  | None => false
  end.

(** [getContent(element, ...)] where [element] may be [None]: the
    attribute access [None.findall] raises. *)
Definition getContent_of (element : option Element) (path : path)
           (default : option string) : result (option string) :=
  match element with
  | Some e => Ok (Helpers.getContent e path default nl)
  | None => Raise AttributeError
  end.

(** The body shared by both date resolvers once the date node is
    chosen: year, month and day are read and converted in this order,
    then the date is built. *)
Definition date_of_node (publication_date : option Element)
           (year month day : string) : result PyDate.date :=
  publication_year <-
    (t <- getContent_of publication_date [Self; Descendant year] None ;;
     PyInt.int t) ;;
  publication_month <-
    (t <- getContent_of publication_date [Self; Descendant month] (Some "1") ;;
     PyInt.int t) ;;
  publication_day <-
    (t <- getContent_of publication_date [Self; Descendant day] (Some "1") ;;
     PyInt.int t) ;;
  PyDate.new publication_year publication_month publication_day.

(** The values an article holds in its slots and hands out in its
    dictionary form: [None], strings, dates, elements, lists and
    dictionaries (in insertion order) of such values. *)
Inductive pyvalue : Type :=
| PNone
| PStr (s : string)
| PDate (d : PyDate.date)
| PElement (e : Element)
| PList (items : list pyvalue)
| PDict (items : list (string * pyvalue)).

Definition of_str (s : option string) : pyvalue :=
  match s with
  | Some s => PStr s
  | None => PNone
  end.

Definition of_date (d : option PyDate.date) : pyvalue :=
  match d with
  | Some d => PDate d
  | None => PNone
  end.

(** [d.get(key, default)] *)
Fixpoint dict_get (d : list (string * pyvalue)) (key : string)
         (default : pyvalue) : pyvalue :=
  match d with
  | [] => default
  | (k, v) :: d' => if String.eqb k key then v else dict_get d' key default
  end.

(** An instance of a class with [__slots__]: the slots assigned so
    far with their values. *)
Definition instance : Type := list (string * pyvalue).

(** [self.__setattr__(name, value)] for the name of a slot. *)
Fixpoint setattr (self : instance) (name : string) (value : pyvalue)
  : instance :=
  match self with
  | [] => [(name, value)]
  | (k, v) :: rest =>
      if String.eqb k name then (k, value) :: rest
      else (k, v) :: setattr rest name value
  end.

(** [self.__getattribute__(name)]: a slot that was never assigned
    raises [AttributeError]. *)
Fixpoint getattribute (self : instance) (name : string) : result pyvalue :=
  match self with
  | [] => Raise AttributeError
  | (k, v) :: rest =>
      if String.eqb k name then Ok v else getattribute rest name
  end.

(** [{key: self.__getattribute__(key) for key in slots}] *)
Fixpoint dict_of_slots (self : instance) (slots : list string)
  : result (list (string * pyvalue)) :=
  match slots with
  | [] => Ok []
  | key :: rest =>
      value <- getattribute self key ;;
      d <- dict_of_slots self rest ;;
      Ok ((key, value) :: d)
  end.

(** The loop of [__init__] without an XML element:
    [self.__setattr__(field, kwargs.get(field, None))] for every slot. *)
Definition init_from_kwargs (slots : list string)
           (kwargs : list (string * pyvalue)) : instance :=
  fold_left (fun self field => setattr self field (dict_get kwargs field PNone))
            slots [].

Module PubMedArticle.

Record author : Type := mkAuthor {
  lastname : option string;
  firstname : option string;
  initials : option string;
  affiliation : option string
}.

Record t : Type := mkArticle {
  pubmed_id : option string;
  title : option string;
  abstract : option string;
  keywords : list (option string);
  journal : option string;
  publication_date : option PyDate.date;
  authors : list author;
  copyrights : option string;
  doi : option string;
  xml : Element
}.

(** [".//ArticleId[@IdType='pubmed']"] *)
Definition _extractPubMedId (xml_element : Element) : option string :=
  Helpers.getContent xml_element
    [Self; Descendant "ArticleId"; AttrEq "IdType" "pubmed"] None nl.

(** [".//ArticleTitle"] *)
Definition _extractTitle (xml_element : Element) : option string :=
  Helpers.getContent xml_element [Self; Descendant "ArticleTitle"] None nl.

(** [".//Keyword"]; the comprehension tests the matched node
    [keyword] itself, an element, and collects [keyword.text]. *)
Definition _extractKeywords (xml_element : Element) : list (option string) :=
  map text
      (filter (fun keyword => is_not_None (Some keyword))
              (findall xml_element [Self; Descendant "Keyword"])).

(** [".//Journal/Title"] *)
Definition _extractJournal (xml_element : Element) : option string :=
  Helpers.getContent xml_element
    [Self; Descendant "Journal"; Child "Title"] None nl.

(** [".//AbstractText"] *)
Definition _extractAbstract (xml_element : Element) : option string :=
  Helpers.getContent xml_element [Self; Descendant "AbstractText"] None nl.

(** [".//CopyrightInformation"] *)
Definition _extractCopyrights (xml_element : Element) : option string :=
  Helpers.getContent xml_element
    [Self; Descendant "CopyrightInformation"] None nl.

(** [".//ArticleId[@IdType='doi']"] *)
Definition _extractDoi (xml_element : Element) : option string :=
  Helpers.getContent xml_element
    [Self; Descendant "ArticleId"; AttrEq "IdType" "doi"] None nl.

(** [xml_element.find(".//PubMedPubDate[@PubStatus='pubmed']")] *)
Definition selected_date_node (xml_element : Element) : option Element :=
  find xml_element
    [Self; Descendant "PubMedPubDate"; AttrEq "PubStatus" "pubmed"].

(** The handler prints the exception and returns [None]; the printed
    line is not part of the returned value. *)
Definition _extractPublicationDate (xml_element : Element)
  : result (option PyDate.date) :=
  try_except
    (let publication_date := selected_date_node xml_element in
     d <- date_of_node publication_date "Year" "Month" "Day" ;;
     Ok (Some d))
    (fun e => Ok None).

Definition _extractAuthors (xml_element : Element) : list author :=
  map (fun author =>
         {| lastname :=
              Helpers.getContent author [Self; Descendant "LastName"] None nl;
            firstname :=
              Helpers.getContent author [Self; Descendant "ForeName"] None nl;
            initials :=
              Helpers.getContent author [Self; Descendant "Initials"] None nl;
            affiliation :=
              Helpers.getContent author
                [Self; Descendant "AffiliationInfo"; Child "Affiliation"]
                None nl |})
      (findall xml_element [Self; Descendant "Author"]).

Definition _initializeFromXML (xml_element : Element) : result t :=
  let pubmed_id := _extractPubMedId xml_element in
  let title := _extractTitle xml_element in
  let keywords := _extractKeywords xml_element in
  let journal := _extractJournal xml_element in
  let abstract := _extractAbstract xml_element in
  let copyrights := _extractCopyrights xml_element in
  let doi := _extractDoi xml_element in
  publication_date <- _extractPublicationDate xml_element ;;
  let authors := _extractAuthors xml_element in
  Ok {| pubmed_id := pubmed_id; title := title; abstract := abstract;
        keywords := keywords; journal := journal;
        publication_date := publication_date; authors := authors;
        copyrights := copyrights; doi := doi; xml := xml_element |}.

Definition __slots__ : list string :=
  ["pubmed_id"; "title"; "abstract"; "keywords"; "journal";
   "publication_date"; "authors"; "copyrights"; "doi"; "xml"].

(** The dictionary built for one author. *)
Definition author_value (a : author) : pyvalue :=
  PDict [("lastname", of_str (lastname a));
         ("firstname", of_str (firstname a));
         ("initials", of_str (initials a));
         ("affiliation", of_str (affiliation a))].

(** The slots of the instance after [_initializeFromXML], in the
    order of its assignments. *)
Definition slots_of (r : t) : instance :=
  [("pubmed_id", of_str (pubmed_id r));
   ("title", of_str (title r));
   ("keywords", PList (map of_str (keywords r)));
   ("journal", of_str (journal r));
   ("abstract", of_str (abstract r));
   ("copyrights", of_str (copyrights r));
   ("doi", of_str (doi r));
   ("publication_date", of_date (publication_date r));
   ("authors", PList (map author_value (authors r)));
   ("xml", PElement (xml r))].

(** [PubMedArticle(xml_element, **kwargs)] *)
Definition __init__ (xml_element : option Element)
           (kwargs : list (string * pyvalue)) : result instance :=
  match xml_element with
  | Some xml_element =>
      r <- _initializeFromXML xml_element ;; Ok (slots_of r)
  | None => Ok (init_from_kwargs __slots__ kwargs)
  end.

Definition toDict (self : instance) : result (list (string * pyvalue)) :=
  dict_of_slots self __slots__.

End PubMedArticle.

Module PMCArticle.

Record author : Type := mkAuthor {
  surname : option string;
  given_names : option string
}.

Record t : Type := mkArticle {
  pubmed_id : option string;
  title : option string;
  abstract : option string;
  keywords : list (option string);
  journal : option string;
  publication_date : option PyDate.date;
  authors : list author;
  body : option string;
  introduction : option string;
  methods : option string;
  results : option string;
  discussion : option string;
  conclusion : option string;
  copyrights : option string;
  doi : option string;
  xml : Element
}.

(** [".//article-id[@pub-id-type='pmc']"] *)
Definition _extractPubMedId (xml_element : Element) : option string :=
  Helpers.getContent xml_element
    [Self; Descendant "article-id"; AttrEq "pub-id-type" "pmc"] None nl.

(** [".//title-group/article-title"] *)
Definition _extractTitle (xml_element : Element) : option string :=
  Helpers.getContent xml_element
    [Self; Descendant "title-group"; Child "article-title"] None nl.

(** [".//kwd-group/kwd"] *)
Definition _extractKeywords (xml_element : Element) : list (option string) :=
  map text
      (filter (fun keyword => is_not_None (Some keyword))
              (findall xml_element
                 [Self; Descendant "kwd-group"; Child "kwd"])).

(** [".//journal-title"] *)
Definition _extractJournal (xml_element : Element) : option string :=
  Helpers.getContent xml_element [Self; Descendant "journal-title"] None nl.

(** [".//abstract"] *)
Definition _extractAbstract (xml_element : Element) : option string :=
  Helpers.getAbstract xml_element [Self; Descendant "abstract"] None.

(** [".//body"] *)
Definition _extractBody (xml_element : Element) : option string :=
  Helpers.getBody xml_element [Self; Descendant "body"] None.

(** [".//body/sec"] *)
Definition _extractBodySections (xml_element : Element) :=
  Helpers.getBodySections xml_element
    [Self; Descendant "body"; Child "sec"] None.

(** [".//permissions/copyright-statement"] *)
Definition _extractCopyrights (xml_element : Element) : option string :=
  Helpers.getContent xml_element
    [Self; Descendant "permissions"; Child "copyright-statement"] None nl.

(** [".//article-id[@pub-id-type='doi']"] *)
Definition _extractDoi (xml_element : Element) : option string :=
  Helpers.getContent xml_element
    [Self; Descendant "article-id"; AttrEq "pub-id-type" "doi"] None nl.

(** [date.get('pub-type') == 'epub'] *)
Definition is_epub (date : Element) : bool :=
  opt_eqb (get date "pub-type") (Some "epub").

(** [".//pub-date[@date-type='pub'][@publication-format='electronic']"] *)
Definition electronic_pub_path : path :=
  [Self; Descendant "pub-date"; AttrEq "date-type" "pub";
   AttrEq "publication-format" "electronic"].

(** The node the resolver reads the date from: the loop over all
    [.//pub-date] nodes keeps a node of pub-type epub, then the two
    fallbacks apply while nothing was chosen. *)
Definition selected_date_node (xml_element : Element) : option Element :=
  let publication_dates := findall xml_element [Self; Descendant "pub-date"] in
  let publication_date :=
    fold_left (fun publication_date date =>
                 if is_epub date then Some date else publication_date)
              publication_dates None in
  let publication_date :=
    match publication_date with
    | None => find xml_element electronic_pub_path
    | Some _ => publication_date
    end in
  match publication_date with
  | None => find xml_element [Self; Descendant "pub-date"]
  | Some _ => publication_date
  end.

Definition _extractPublicationDate (xml_element : Element)
  : result (option PyDate.date) :=
  try_except
    (let publication_date := selected_date_node xml_element in
     d <- date_of_node publication_date "year" "month" "day" ;;
     Ok (Some d))
    (fun e => Ok None).

(** [".//contrib-group/contrib[@contrib-type='author']/name"] *)
Definition _extractAuthors (xml_element : Element) : list author :=
  map (fun author =>
         {| surname :=
              Helpers.getContent author [Self; Descendant "surname"] None nl;
            given_names :=
              Helpers.getContent author
                [Self; Descendant "given-names"] None nl |})
      (findall xml_element
         [Self; Descendant "contrib-group"; Child "contrib";
          AttrEq "contrib-type" "author"; Child "name"]).

Definition _initializeFromXML (xml_element : Element) : result t :=
  let pubmed_id := _extractPubMedId xml_element in
  let title := _extractTitle xml_element in
  let keywords := _extractKeywords xml_element in
  let journal := _extractJournal xml_element in
  let abstract := _extractAbstract xml_element in
  let body := _extractBody xml_element in
  let '(introduction, methods, results, discussion, conclusion) :=
    _extractBodySections xml_element in
  let copyrights := _extractCopyrights xml_element in
  let doi := _extractDoi xml_element in
  publication_date <- _extractPublicationDate xml_element ;;
  let authors := _extractAuthors xml_element in
  Ok {| pubmed_id := pubmed_id; title := title; abstract := abstract;
        keywords := keywords; journal := journal;
        publication_date := publication_date; authors := authors;
        body := body; introduction := introduction; methods := methods;
        results := results; discussion := discussion;
        conclusion := conclusion; copyrights := copyrights; doi := doi;
        xml := xml_element |}.

Definition __slots__ : list string :=
  ["pubmed_id"; "title"; "abstract"; "keywords"; "journal";
   "publication_date"; "authors"; "body"; "introduction"; "methods";
   "results"; "discussion"; "conclusion"; "copyrights"; "doi"; "xml"].

(** The dictionary built for one author. *)
Definition author_value (a : author) : pyvalue :=
  PDict [("surname", of_str (surname a));
         ("given-names", of_str (given_names a))].

(** The slots of the instance after [_initializeFromXML], in the
    order of its assignments. *)
Definition slots_of (r : t) : instance :=
  [("pubmed_id", of_str (pubmed_id r));
   ("title", of_str (title r));
   ("keywords", PList (map of_str (keywords r)));
   ("journal", of_str (journal r));
   ("abstract", of_str (abstract r));
   ("body", of_str (body r));
   ("introduction", of_str (introduction r));
   ("methods", of_str (methods r));
   ("results", of_str (results r));
   ("discussion", of_str (discussion r));
   ("conclusion", of_str (conclusion r));
   ("copyrights", of_str (copyrights r));
   ("doi", of_str (doi r));
   ("publication_date", of_date (publication_date r));
   ("authors", PList (map author_value (authors r)));
   ("xml", PElement (xml r))].

(** [PMCArticle(xml_element, **kwargs)] *)
Definition __init__ (xml_element : option Element)
           (kwargs : list (string * pyvalue)) : result instance :=
  match xml_element with
  | Some xml_element =>
      r <- _initializeFromXML xml_element ;; Ok (slots_of r)
  | None => Ok (init_from_kwargs __slots__ kwargs)
  end.

Definition toDict (self : instance) : result (list (string * pyvalue)) :=
  dict_of_slots self __slots__.

End PMCArticle.

(* ================================================================= *)
(** ** Vocabulary of the statements *)

(** The ceiling of [a / b] for a positive [b]. *)
Definition ceil_div (a b : Z) : Z := ((a + b - 1) / b)%Z.

(** The slice [batches] yields at its [k]-th iteration. *)
Definition nth_batch {A : Type} (l : list A) (n : Z) (k : nat) : list A :=
  Helpers.py_slice l (0 + Z.of_nat k * n)%Z
    (Z.min (0 + Z.of_nat k * n + n) (Z.of_nat (List.length l))).

(** The five canonical sections and their place in the tuple that
    [getBodySections] returns. *)
Inductive canonical : Type :=
| Introduction
| Methods
| Results
| Discussion
| Conclusion.

Definition canonical_name (c : canonical) : string :=
  match c with
  | Introduction => "introduction"
  | Methods => "methods"
  | Results => "results"
  | Discussion => "discussion"
  | Conclusion => "conclusion"
  end.

Definition field (c : canonical)
           (r : option string * option string * option string
                * option string * option string) : option string :=
  let '(i, m, r, d, k) := r in
  match c with
  | Introduction => i
  | Methods => m
  | Results => r
  | Discussion => d
  | Conclusion => k
  end.

(** The lower-cased title text of [sec] contains [section]; the title
    text is the text of the first [title] child. *)
Definition title_matches (section : string) (sec : Element) : bool :=
  match findtext sec [Child "title"] with
  | Some title_text => contains section (lower title_text)
  | None => false
  end.

(** Every paragraph below [sec], rendered and followed by a blank line. *)
Definition paragraphs_text (sec : Element) : string :=
  String.concat EmptyString
    (map (fun p => Helpers.joined_text p ++ nl ++ nl)
         (findall sec [Self; Descendant "p"])).

(** What a matching section contributes: rendered title, colon and
    space, then its paragraphs. *)
Definition section_entry (sec : Element) : string :=
  match find sec [Child "title"] with
  | Some title => Helpers.joined_text title ++ ": " ++ paragraphs_text sec
  | None => EmptyString
  end.

(** The bucket of [section] after a walk over [secs]. *)
Definition bucket (section : string) (secs : list Element) : string :=
  String.concat EmptyString (map section_entry (filter (title_matches section) secs)).

Definition or_default (default : option string) (s : string) : option string :=
  if (String.length s =? 0)%nat then default else Some s.

(** [sec] contributes to the field [f]: the field is present and
    holds the entry of [sec] between what comes before and after. *)
Definition contributes (sec : Element) (f : option string) : Prop :=
  exists before after, f = Some (before ++ section_entry sec ++ after).

(** The children of a body rendered one by one, each followed by a
    blank line. *)
Definition children_text (top_level : Element) : string :=
  String.concat EmptyString
    (map (fun sub => Helpers.joined_text sub ++ nl ++ nl) (children top_level)).

(** The body-section selector [.//body/sec] and the body selector. *)
Definition body_sec_path : path := [Self; Descendant "body"; Child "sec"].
Definition body_path : path := [Self; Descendant "body"].

(** A pub-date node marked as the electronic publication by its
    date-type and publication-format attributes. *)
Definition is_electronic_pub (date : Element) : bool :=
  opt_eqb (get date "date-type") (Some "pub")
  && opt_eqb (get date "publication-format") (Some "electronic").

(** Year, month or day of [node] fails to parse, or the three numbers
    are not a calendar date.  Month and day default to ["1"]. *)
Definition date_fields_fail (node : Element) (year month day : string) : Prop :=
  raises (PyInt.int (Helpers.getContent node [Self; Descendant year] None nl))
  \/ raises (PyInt.int (Helpers.getContent node [Self; Descendant month]
                                           (Some "1") nl))
  \/ raises (PyInt.int (Helpers.getContent node [Self; Descendant day]
                                           (Some "1") nl))
  \/ exists y m d,
      PyInt.int (Helpers.getContent node [Self; Descendant year] None nl) = Ok y
      /\ PyInt.int (Helpers.getContent node [Self; Descendant month]
                                       (Some "1") nl) = Ok m
      /\ PyInt.int (Helpers.getContent node [Self; Descendant day]
                                       (Some "1") nl) = Ok d
      /\ PyDate.valid y m d = false.

(** Every field but the date holds what its extractor returns. *)
Definition pubmed_fields_populated (xml_element : Element)
           (r : PubMedArticle.t) : Prop :=
  PubMedArticle.pubmed_id r = PubMedArticle._extractPubMedId xml_element
  /\ PubMedArticle.title r = PubMedArticle._extractTitle xml_element
  /\ PubMedArticle.keywords r = PubMedArticle._extractKeywords xml_element
  /\ PubMedArticle.journal r = PubMedArticle._extractJournal xml_element
  /\ PubMedArticle.abstract r = PubMedArticle._extractAbstract xml_element
  /\ PubMedArticle.copyrights r = PubMedArticle._extractCopyrights xml_element
  /\ PubMedArticle.doi r = PubMedArticle._extractDoi xml_element
  /\ PubMedArticle.authors r = PubMedArticle._extractAuthors xml_element
  /\ PubMedArticle.xml r = xml_element.

Definition pmc_fields_populated (xml_element : Element)
           (r : PMCArticle.t) : Prop :=
  PMCArticle.pubmed_id r = PMCArticle._extractPubMedId xml_element
  /\ PMCArticle.title r = PMCArticle._extractTitle xml_element
  /\ PMCArticle.keywords r = PMCArticle._extractKeywords xml_element
  /\ PMCArticle.journal r = PMCArticle._extractJournal xml_element
  /\ PMCArticle.abstract r = PMCArticle._extractAbstract xml_element
  /\ PMCArticle.body r = PMCArticle._extractBody xml_element
  /\ (PMCArticle.introduction r, PMCArticle.methods r, PMCArticle.results r,
      PMCArticle.discussion r, PMCArticle.conclusion r)
     = PMCArticle._extractBodySections xml_element
  /\ PMCArticle.copyrights r = PMCArticle._extractCopyrights xml_element
  /\ PMCArticle.doi r = PMCArticle._extractDoi xml_element
  /\ PMCArticle.authors r = PMCArticle._extractAuthors xml_element
  /\ PMCArticle.xml r = xml_element.

(** Year, month and day below [node] convert to [y], [m] and [d];
    month and day default to ["1"]. *)
Definition date_fields (node : Element) (year month day : string)
           (y m d : Z) : Prop :=
  PyInt.int (Helpers.getContent node [Self; Descendant year] None nl) = Ok y
  /\ PyInt.int (Helpers.getContent node [Self; Descendant month]
                                   (Some "1") nl) = Ok m
  /\ PyInt.int (Helpers.getContent node [Self; Descendant day]
                                   (Some "1") nl) = Ok d.

(** Every node matched by [path] below [node] is without text, and
    there is such a node. *)
Definition textless_match (node : Element) (path : path) : Prop :=
  findall node path <> []
  /\ forall sub, In sub (findall node path) -> text sub = None.

(** What [getAbstract] and [getBody] render for one section: its
    title when it has one, then its paragraph children. *)
Definition flat_sec_entry (sep : string) (sec : Element) : string :=
  match find sec [Child "title"] with
  | Some title => Helpers.joined_text title ++ ": "
  | None => EmptyString
  end
  ++ String.concat EmptyString
       (map (fun p => Helpers.joined_text p ++ sep) (findall sec [Child "p"])).

(** What they render for one matched element. *)
Definition flat_body_text (sep : string) (top_level : Element) : string :=
  match find top_level [Child "sec"] with
  | Some _ =>
      String.concat EmptyString
        (map (flat_sec_entry sep) (findall top_level [Self; Descendant "sec"]))
  | None =>
      String.concat EmptyString
        (map (fun sub => Helpers.joined_text sub ++ sep) (children top_level))
  end.

(** A matched element for which nothing is rendered: with a section
    child, no section below it has a title or a paragraph child;
    without one, it has no child at all. *)
Definition renders_nothing (top_level : Element) : Prop :=
  match find top_level [Child "sec"] with
  | Some _ =>
      forall sec, In sec (findall top_level [Self; Descendant "sec"]) ->
                  find sec [Child "title"] = None
                  /\ findall sec [Child "p"] = []
  | None => children top_level = []
  end.

(** White space only. *)
Fixpoint all_space (s : string) : bool :=
  match s with
  | EmptyString => true
  | String c s' => isspace c && all_space s'
  end.

Definition starts_with_space (s : string) : bool :=
  match s with
  | EmptyString => false
  | String c _ => isspace c
  end.

Fixpoint ends_with_space (s : string) : bool :=
  match s with
  | EmptyString => false
  | String c s' =>
      match s' with
      | EmptyString => isspace c
      | String _ _ => ends_with_space s'
      end
  end.

(** [piece] is the fragment [frag] without its leading and trailing
    white space: what is cut off on either side is white space only,
    and [piece] neither starts nor ends with white space. *)
Definition stripped_to (frag piece : string) : Prop :=
  exists before after,
    frag = before ++ piece ++ after
    /\ all_space before = true /\ all_space after = true
    /\ starts_with_space piece = false /\ ends_with_space piece = false.

(* ================================================================= *)
(** ** Sample documents *)

Module Samples.

Definition leaf (tag text : string) : Element :=
  mkElement tag [] (Some text) [] None.

Definition node (tag : string) (children : list Element) : Element :=
  mkElement tag [] None children None.

(** [<title>Intro<ref/>duction</title>] *)
Definition title_intro : Element :=
  mkElement "title" [] (Some "Intro")
    [mkElement "ref" [] None [] (Some "duction")] None.

(** [<title>Metho<i/>ds</title>] *)
Definition title_split : Element :=
  mkElement "title" [] (Some "Metho")
    [mkElement "i" [] None [] (Some "ds")] None.

(** [<title>Materials and <i/>Methods</title>] *)
Definition title_late : Element :=
  mkElement "title" [] (Some "Materials and ")
    [mkElement "i" [] None [] (Some "Methods")] None.

Definition article (secs : list Element) : Element :=
  node "article" [node "body" secs].

Definition doc_intro : Element :=
  article [node "sec" [title_intro; leaf "p" "First."]].

Definition sec_methods_materials : Element :=
  node "sec" [leaf "title" "Methods and Materials"; leaf "p" "We did."].

Definition sec_results_discussion : Element :=
  node "sec" [leaf "title" "Results and Discussion"; leaf "p" "We saw."].

Definition doc_two_names : Element :=
  article [sec_methods_materials; sec_results_discussion].

(** A body that holds one bare paragraph and no section. *)
Definition doc_bare_paragraph : Element :=
  article [leaf "p" "Hello"].

Definition doc_empty_body : Element := article [].

Definition doc_split : Element :=
  article [node "sec" [title_split; leaf "p" "We did."]].

Definition doc_late : Element :=
  article [node "sec" [title_late; leaf "p" "We did."]].

(** A matching section without paragraphs, alone and followed by a
    second matching section that has one. *)
Definition sec_title_only : Element := node "sec" [leaf "title" "Methods"].

Definition doc_title_only : Element := article [sec_title_only].

Definition doc_title_only_then_full : Element :=
  article [sec_title_only;
           node "sec" [leaf "title" "Methods used"; leaf "p" "x"]].

Definition pub_date (attrs : list (string * string)) (y m d : string)
  : Element :=
  mkElement "pub-date" attrs None
    [leaf "day" d; leaf "month" m; leaf "year" y] None.

Definition date_epub : Element :=
  pub_date [("pub-type", "epub")] "2020" "3" "4".
Definition date_ppub : Element :=
  pub_date [("pub-type", "ppub")] "2019" "5" "6".
Definition date_untyped : Element := pub_date [] "2018" "7" "8".
Definition date_electronic : Element :=
  pub_date [("date-type", "pub"); ("publication-format", "electronic")]
           "2017" "9" "10".

Definition with_dates (dates : list Element) : Element :=
  node "article" [node "front" (leaf "journal-title" "J" :: dates)].

Definition doc_three_dates : Element :=
  with_dates [date_epub; date_ppub; date_untyped].

Definition doc_epub_last : Element :=
  with_dates [date_untyped; date_electronic; date_epub].

Definition doc_electronic : Element :=
  with_dates [date_ppub; date_untyped; date_electronic].

Definition doc_print_untyped : Element :=
  with_dates [date_ppub; date_untyped].

(** Full-text and summary documents whose year reads [abcd]. *)
Definition doc_pmc_abcd : Element :=
  with_dates [pub_date [("pub-type", "epub")] "abcd" "3" "4"].

Definition doc_pubmed (fields : list Element) : Element :=
  node "PubmedArticle"
    [leaf "ArticleTitle" "T";
     mkElement "PubMedPubDate" [("PubStatus", "pubmed")] None fields None;
     leaf "Keyword" "k"].

Definition doc_pubmed_abcd : Element :=
  doc_pubmed [leaf "Year" "abcd"; leaf "Month" "3"; leaf "Day" "4"].
Definition doc_pubmed_no_year : Element :=
  doc_pubmed [leaf "Month" "3"; leaf "Day" "4"].
Definition doc_pubmed_feb30 : Element :=
  doc_pubmed [leaf "Year" "2021"; leaf "Month" "2"; leaf "Day" "30"].
Definition doc_pubmed_2020 : Element :=
  doc_pubmed [leaf "Year" "2020"; leaf "Month" "3"; leaf "Day" "4"].
Definition doc_pubmed_year_only : Element :=
  doc_pubmed [leaf "Year" "2020"].

(** [<PubMedPubDate><Year>2020</Year><Month/></PubMedPubDate>] *)
Definition date_textless_month : Element :=
  node "PubMedPubDate" [leaf "Year" "2020"; node "Month" []].

(** Three keyword nodes, the second without text. *)
Definition doc_keywords : Element :=
  node "PubmedArticle"
    [node "KeywordList"
       [leaf "Keyword" "alpha"; node "Keyword" []; leaf "Keyword" "beta"]].

(** [<title>(newline)  Intro <ref/> duction (newline)</title>] *)
Definition title_padded : Element :=
  mkElement "title" [] (Some (nl ++ "  Intro "))
    [mkElement "ref" [] None [] (Some (" duction " ++ nl))] None.

(** [<p>(newline) <b>x</b>(newline)</p>]: the first and the last
    fragment are white space only. *)
Definition p_pretty : Element :=
  mkElement "p" [] (Some (nl ++ " "))
    [mkElement "b" [] (Some "x") [] (Some nl)] None.

(** [<title><bold>Methods and Materials</bold></title>]: the title
    has no direct text. *)
Definition title_bold : Element :=
  node "title" [leaf "bold" "Methods and Materials"].

Definition sec_bold_title : Element :=
  node "sec" [title_bold; leaf "p" "We did."].

Definition doc_bold_title : Element := article [sec_bold_title].

(** A body whose first child is a paragraph outside any section. *)
Definition sec_plain : Element :=
  node "sec" [leaf "title" "Background"; leaf "p" "Known."].

Definition doc_lead_paragraph : Element :=
  article [leaf "p" "Lead."; sec_plain].

Definition doc_no_lead_paragraph : Element := article [sec_plain].

(** A date node with a year only, and one with an empty day. *)
Definition doc_pmc_year_only : Element :=
  with_dates [node "pub-date" [leaf "year" "1999"]].

Definition doc_pmc_empty_day : Element :=
  with_dates [node "pub-date" [node "day" []; leaf "year" "1999"]].

Definition doc_pmc_keywords : Element :=
  node "article"
    [node "kwd-group"
       [leaf "kwd" "alpha"; node "kwd" []; leaf "kwd" "beta"]].

End Samples.

(* ================================================================= *)
(** ** Batching *)

Section BatchesFacts.

Import Helpers.
Local Open Scope Z_scope.

Lemma ceil_div_nonpos a b : 1 <= b -> a <= 0 -> ceil_div a b <= 0.
Proof.
  intros Hb Ha. unfold ceil_div.
  assert ((a + b - 1) / b < 1); [|lia].
  apply Z.div_lt_upper_bound; lia.
Qed.

Lemma ceil_div_step a b :
  1 <= b -> 0 < a ->
  ceil_div a b = ceil_div (a - b) b + 1 /\ 0 <= ceil_div (a - b) b.
Proof.
  intros Hb Ha. unfold ceil_div.
  replace (a + b - 1) with ((a - b + b - 1) + 1 * b) by lia.
  rewrite Z.div_add by lia. split; [reflexivity|].
  apply Z.div_pos; lia.
Qed.

(** [ceil_div a b] is the least [c] with [a <= c * b]. *)
Lemma ceil_div_bounds a b :
  1 <= b -> 0 <= a ->
  (ceil_div a b - 1) * b < a <= ceil_div a b * b /\ 0 <= ceil_div a b.
Proof.
  intros Hb Ha. unfold ceil_div.
  pose proof (Z.div_mod (a + b - 1) b ltac:(lia)) as Hdm.
  pose proof (Z.mod_pos_bound (a + b - 1) b ltac:(lia)) as Hm.
  assert (0 <= (a + b - 1) / b) by (apply Z.div_pos; lia).
  nia.
Qed.

(** The loop of [range] visits [i], [i + step], ... below [stop]. *)
Lemma range_up_closed fuel : forall i stop step,
  1 <= step -> stop - i <= Z.of_nat fuel ->
  range_up fuel i stop step
  = map (fun k => i + Z.of_nat k * step)
        (seq 0 (Z.to_nat (ceil_div (stop - i) step))).
Proof.
  induction fuel as [|fuel IH]; intros i stop step Hs Hf.
  - simpl. pose proof (ceil_div_nonpos (stop - i) step Hs) as H.
    replace (Z.to_nat _) with O by lia. reflexivity.
  - simpl. destruct (i <? stop) eqn:E.
    + apply Z.ltb_lt in E.
      destruct (ceil_div_step (stop - i) step Hs) as [Hc Hp]; [lia|].
      rewrite Hc.
      replace (Z.to_nat (ceil_div (stop - i - step) step + 1))
        with (S (Z.to_nat (ceil_div (stop - i - step) step))) by lia.
      simpl. f_equal; [lia|].
      rewrite IH by lia. rewrite <- seq_shift, map_map.
      replace (stop - (i + step)) with (stop - i - step) by lia.
      apply map_ext. intros k. lia.
    + apply Z.ltb_ge in E.
      pose proof (ceil_div_nonpos (stop - i) step Hs) as H.
      replace (Z.to_nat _) with O by lia. reflexivity.
Qed.

Context {A : Type}.
Variable l : list A.
Variable n : Z.
Hypothesis Hn : 1 <= n.

Let L := Z.of_nat (List.length l).

Lemma nth_batch_eq k :
  nth_batch l n k
  = firstn (Z.to_nat (Z.min (Z.of_nat k * n + n) L)
            - Z.to_nat (Z.min (Z.of_nat k * n) L))
           (skipn (Z.to_nat (Z.min (Z.of_nat k * n) L)) l).
Proof.
  unfold nth_batch, py_slice, slice_bound. fold L.
  assert (0 <= L) by (unfold L; lia).
  assert (0 <= Z.of_nat k * n) by nia.
  destruct (0 + Z.of_nat k * n <? 0) eqn:E1; [apply Z.ltb_lt in E1; lia|].
  destruct (Z.min (0 + Z.of_nat k * n + n) L <? 0) eqn:E2;
    [apply Z.ltb_lt in E2; lia|].
  f_equal; try f_equal; lia.
Qed.

Lemma nth_batch_length k :
  Z.of_nat (List.length (nth_batch l n k))
  = Z.min (Z.of_nat k * n + n) L - Z.min (Z.of_nat k * n) L.
Proof.
  rewrite nth_batch_eq, length_firstn, length_skipn.
  assert (0 <= Z.of_nat k * n) by nia.
  unfold L. lia.
Qed.

Lemma firstn_add_skipn (a d : nat) (xs : list A) :
  firstn (a + d) xs = (firstn a xs ++ firstn d (skipn a xs))%list.
Proof.
  revert xs. induction a as [|a IH]; intros xs; [reflexivity|].
  destruct xs as [|x xs]; simpl.
  - now rewrite firstn_nil.
  - now rewrite IH.
Qed.

Lemma concat_batches c :
  List.concat (map (nth_batch l n) (seq 0 c))
  = firstn (Z.to_nat (Z.min (Z.of_nat c * n) L)) l.
Proof.
  induction c as [|c IH].
  - simpl. replace (Z.to_nat _) with O by (unfold L; lia). reflexivity.
  - rewrite seq_S, map_app, concat_app, IH. cbn [map List.concat Nat.add].
    rewrite app_nil_r, nth_batch_eq, <- firstn_add_skipn. f_equal.
    assert (Z.of_nat (S c) * n = Z.of_nat c * n + n) as -> by lia.
    assert (0 <= Z.of_nat c * n) by nia.
    unfold L. lia.
Qed.

(** With a positive size, [batches] yields the batches number 0, 1,
    ..., one per index of the range. *)
Lemma batches_closed :
  batches l n = Ok (map (nth_batch l n) (seq 0 (Z.to_nat (ceil_div L n)))).
Proof.
  unfold batches, py_range.
  destruct (n =? 0) eqn:E0; [apply Z.eqb_eq in E0; lia|].
  destruct (0 <? n) eqn:E1; [|apply Z.ltb_ge in E1; lia].
  cbn [bind]. f_equal.
  rewrite range_up_closed by lia. rewrite map_map. fold L.
  replace (L - 0) with L by lia. reflexivity.
Qed.

End BatchesFacts.

(** C8.  For a sequence of length [L] and a chunk size [n >= 1],
    [batches] yields exactly [ceil(L / n)] chunks in order; every chunk
    but the last has length [n]; the last has length
    [L - n * (ceil(L / n) - 1)]; the concatenation of the chunks is
    the sequence; a sequence of 7 elements cut with size 3 gives
    chunks of lengths 3, 3 and 1. *)
Theorem batches_chunks (A : Type) (l : list A) (n : Z) :
  (1 <= n)%Z ->
  exists chunks : list (list A),
    Helpers.batches l n = Ok chunks
    /\ Z.of_nat (List.length chunks) = ceil_div (Z.of_nat (List.length l)) n
    /\ (forall k, (S k < List.length chunks)%nat ->
                  Z.of_nat (List.length (nth k chunks [])) = n)
    /\ (forall k, S k = List.length chunks ->
                  Z.of_nat (List.length (nth k chunks []))
                  = (Z.of_nat (List.length l)
                     - n * (ceil_div (Z.of_nat (List.length l)) n - 1))%Z)
    /\ List.concat chunks = l
    /\ (List.length l = 7%nat -> n = 3%Z ->
        map (@List.length A) chunks = [3; 3; 1]%nat).
Proof.
  intros Hn.
  set (L := Z.of_nat (List.length l)).
  destruct (ceil_div_bounds L n Hn ltac:(unfold L; lia)) as [[Hlo Hhi] Hc].
  set (c := Z.to_nat (ceil_div L n)).
  assert (Hcz : Z.of_nat c = ceil_div L n) by (unfold c; lia).
  exists (map (nth_batch l n) (seq 0 c)).
  assert (Hlen : List.length (map (nth_batch l n) (seq 0 c)) = c)
    by now rewrite length_map, length_seq.
  assert (Hnth : forall k, (k < c)%nat ->
            nth k (map (nth_batch l n) (seq 0 c)) [] = nth_batch l n k).
  { intros k Hk.
    rewrite nth_indep with (d' := nth_batch l n 0)
      by (rewrite length_map, length_seq; exact Hk).
    rewrite map_nth, seq_nth by exact Hk. reflexivity. }
  assert (Hinner : forall k, (S k < c)%nat ->
            Z.of_nat (List.length (nth_batch l n k)) = n).
  { intros k Hk. rewrite nth_batch_length by exact Hn. fold L.
    assert (0 <= Z.of_nat k * n)%Z by nia.
    assert (Z.of_nat k * n + n <= (ceil_div L n - 1) * n)%Z by nia.
    lia. }
  assert (Hlast : forall k, S k = c ->
            Z.of_nat (List.length (nth_batch l n k))
            = (L - n * (ceil_div L n - 1))%Z).
  { intros k Hk. rewrite nth_batch_length by exact Hn. fold L.
    assert (Z.of_nat k = ceil_div L n - 1)%Z as -> by lia.
    assert (0 <= (ceil_div L n - 1) * n)%Z by nia.
    lia. }
  split; [apply batches_closed; exact Hn|].
  split; [rewrite Hlen; exact Hcz|].
  split; [intros k Hk; rewrite Hlen in Hk; rewrite Hnth by lia; auto|].
  split; [intros k Hk; rewrite Hlen in Hk; rewrite Hnth by lia; auto|].
  split.
  - rewrite concat_batches by exact Hn. fold L.
    apply firstn_all2. unfold L in *. lia.
  - intros H7 H3.
    assert (HL : L = 7%Z) by (unfold L; lia).
    assert (Hc3 : c = 3%nat).
    { unfold c. rewrite HL, H3. reflexivity. }
    rewrite Hc3 in *. cbn [seq map].
    pose proof (Hinner 0%nat ltac:(lia)) as H0.
    pose proof (Hinner 1%nat ltac:(lia)) as H1.
    pose proof (Hlast 2%nat eq_refl) as H2.
    rewrite HL, H3 in H2. change (ceil_div 7 3) with 3%Z in H2.
    rewrite H3 in H0, H1. rewrite H3.
    replace (List.length (nth_batch l 3 0)) with 3%nat by lia.
    replace (List.length (nth_batch l 3 1)) with 3%nat by lia.
    replace (List.length (nth_batch l 3 2)) with 1%nat by lia.
    reflexivity.
Qed.

Lemma batches_chunks_witness :
  exists chunks : list (list Z),
    Helpers.batches [1; 2; 3; 4; 5; 6; 7]%Z 3 = Ok chunks
    /\ map (@List.length Z) chunks = [3; 3; 1]%nat
    /\ List.concat chunks = [1; 2; 3; 4; 5; 6; 7]%Z.
Proof.
  destruct (batches_chunks Z [1; 2; 3; 4; 5; 6; 7]%Z 3 ltac:(lia))
    as [chunks [H1 [_ [_ [_ [H5 H6]]]]]].
  exists chunks. split; [exact H1|]. split; [|exact H5].
  apply H6; reflexivity.
Defined.

(* ================================================================= *)
(** ** Strings *)

Section StringFacts.

Lemma app_assoc (a b c : string) : (a ++ b) ++ c = a ++ b ++ c.
Proof. induction a as [|x a IH]; simpl; [reflexivity | now rewrite IH]. Qed.

Lemma app_empty_r (a : string) : a ++ EmptyString = a.
Proof. induction a as [|x a IH]; simpl; [reflexivity | now rewrite IH]. Qed.

Lemma length_app (a b : string) :
  String.length (a ++ b) = (String.length a + String.length b)%nat.
Proof. induction a as [|x a IH]; simpl; [reflexivity | now rewrite IH]. Qed.

Lemma length_zero (a : string) : String.length a = 0%nat <-> a = EmptyString.
Proof. destruct a; simpl; split; congruence. Qed.

Lemma concat_empty_cons (x : string) (xs : list string) :
  String.concat EmptyString (x :: xs) = x ++ String.concat EmptyString xs.
Proof. destruct xs; simpl; [now rewrite app_empty_r | reflexivity]. Qed.

Lemma concat_empty_app (xs ys : list string) :
  String.concat EmptyString (xs ++ ys)%list
  = String.concat EmptyString xs ++ String.concat EmptyString ys.
Proof.
  induction xs as [|x xs IH]; [reflexivity|].
  rewrite <- List.app_comm_cons, !concat_empty_cons, IH.
  now rewrite app_assoc.
Qed.

(** A loop of [ret_str += f x] appends the pieces in order. *)
Lemma fold_left_append {X : Type} (f : X -> string) (xs : list X) :
  forall acc,
    fold_left (fun ret_str x => ret_str ++ f x) xs acc
    = acc ++ String.concat EmptyString (map f xs).
Proof.
  induction xs as [|x xs IH]; intros acc.
  - simpl. now rewrite app_empty_r.
  - cbn [fold_left map]. rewrite IH, concat_empty_cons.
    now rewrite app_assoc.
Qed.

Lemma concat_empty_nil_iff (xs : list string) :
  String.concat EmptyString xs = EmptyString <-> forall x, In x xs -> x = EmptyString.
Proof.
  induction xs as [|x xs IH].
  - simpl. split; [intros _ y [] | reflexivity].
  - rewrite concat_empty_cons. split.
    + intros H y [<-|Hy].
      * destruct x; [reflexivity | discriminate].
      * apply IH; [|exact Hy]. destruct x; [exact H | discriminate].
    + intros H. rewrite (H x (or_introl eq_refl)). simpl.
      apply IH. intros y Hy. apply H. now right.
Qed.

Lemma endswith_refl (b : string) : endswith b b = true.
Proof. destruct b; simpl; [reflexivity|]. now rewrite Ascii.eqb_refl, String.eqb_refl. Qed.

Lemma endswith_app (a b : string) : endswith (a ++ b) b = true.
Proof.
  induction a as [|x a IH]; simpl.
  - apply endswith_refl.
  - rewrite IH. apply orb_true_r.
Qed.

End StringFacts.

(* ================================================================= *)
(** ** ElementPath *)

Section PathFacts.

Lemma findall_snoc (e : Element) (p : path) (s : step) :
  findall e (p ++ [s])%list = select s (findall e p).
Proof. unfold findall. now rewrite fold_left_app. Qed.

Lemma find_None (e : Element) (p : path) :
  find e p = None <-> findall e p = [].
Proof.
  unfold find. destruct (findall e p); simpl; split; congruence.
Qed.

Lemma find_Some_in (e : Element) (p : path) (x : Element) :
  find e p = Some x -> In x (findall e p).
Proof.
  unfold find. destruct (findall e p); simpl; [discriminate|].
  intros [= ->]. now left.
Qed.

Lemma findtext_of_find (e : Element) (p : path) (x : Element) :
  find e p = Some x ->
  findtext e p = Some (match text x with Some s => s | None => EmptyString end).
Proof. unfold findtext. intros ->. now destruct (text x). Qed.

Lemma findtext_None (e : Element) (p : path) :
  find e p = None -> findtext e p = None.
Proof. unfold findtext. now intros ->. Qed.

Lemma filter_none {X : Type} (f : X -> bool) (l : list X) :
  (forall x, In x l -> f x = false) -> filter f l = [].
Proof.
  induction l as [|a l IH]; intros H; [reflexivity|].
  cbn [filter]. rewrite (H a (or_introl eq_refl)).
  apply IH. intros x Hx. apply H. now right.
Qed.

Lemma hd_error_filter_None {X : Type} (f : X -> bool) (l : list X) :
  hd_error (filter f l) = None <-> forall x, In x l -> f x = false.
Proof.
  induction l as [|a l IH]; simpl.
  - split; [intros _ x [] | reflexivity].
  - destruct (f a) eqn:E; simpl.
    + split; [discriminate|]. intros H.
      specialize (H a (or_introl eq_refl)). congruence.
    + rewrite IH. split.
      * intros H x [<-|Hx]; auto.
      * intros H x Hx. apply H. now right.
Qed.

Lemma hd_error_filter_Some {X : Type} (f : X -> bool) (l : list X) (x : X) :
  hd_error (filter f l) = Some x -> In x l /\ f x = true.
Proof.
  intros H.
  assert (Hin : In x (filter f l)).
  { destruct (filter f l); simpl in H; [discriminate|].
    injection H as ->. now left. }
  now apply filter_In in Hin.
Qed.

End PathFacts.

(* ================================================================= *)
(** ** Section classifier *)

Section ClassifierFacts.

Import Helpers.

Lemma title_matches_find (section : string) (sec : Element) :
  title_matches section sec = true ->
  exists title, find sec [Child "title"] = Some title.
Proof.
  unfold title_matches, findtext.
  destruct (find sec [Child "title"]) as [t|]; [eauto | discriminate].
Qed.

(** One iteration of the loop of [getSection]. *)
Lemma section_step_eq (section ret_str : string) (sec : Element) :
  section_step section ret_str sec
  = ret_str ++ (if title_matches section sec then section_entry sec else EmptyString).
Proof.
  unfold section_step, title_matches, section_entry.
  destruct (find sec [Child "title"]) as [title|] eqn:Ht.
  - rewrite (findtext_of_find _ _ _ Ht).
    destruct (contains section _); [|now rewrite app_empty_r].
    unfold paragraphs_text.
    destruct (find sec [Self; Descendant "p"]) eqn:Hp.
    + rewrite fold_left_append. now rewrite !app_assoc.
    + apply find_None in Hp. rewrite Hp. reflexivity.
  - rewrite (findtext_None _ _ Ht). now rewrite app_empty_r.
Qed.

Lemma section_walk (section : string) (secs : list Element) :
  forall ret_str,
    fold_left (section_step section) secs ret_str
    = ret_str ++ bucket section secs.
Proof.
  unfold bucket.
  induction secs as [|sec secs IH]; intros ret_str.
  - simpl. now rewrite app_empty_r.
  - cbn [fold_left filter]. rewrite IH, section_step_eq.
    destruct (title_matches section sec).
    + cbn [map]. now rewrite concat_empty_cons, !app_assoc.
    + now rewrite app_empty_r.
Qed.

(** [getSection] returns the bucket of the walk, or the default when
    the bucket stayed empty. *)
Lemma getSection_bucket (element : Element) (path : path)
      (section : string) (default : option string) :
  getSection element path section default
  = or_default default (bucket section (findall element path)).
Proof.
  unfold getSection. now rewrite section_walk.
Qed.

Lemma bucket_split (section : string) (l1 l2 : list Element) (sec : Element) :
  title_matches section sec = true ->
  bucket section (l1 ++ sec :: l2)%list
  = bucket section l1 ++ section_entry sec ++ bucket section l2.
Proof.
  intros Hm. unfold bucket.
  rewrite filter_app, map_app, concat_empty_app.
  cbn [filter]. rewrite Hm. cbn [map].
  now rewrite concat_empty_cons.
Qed.

Lemma section_entry_nonempty (section : string) (sec : Element) :
  title_matches section sec = true ->
  (2 <= String.length (section_entry sec))%nat.
Proof.
  intros Hm. destruct (title_matches_find _ _ Hm) as [t Ht].
  unfold section_entry. rewrite Ht.
  rewrite !length_app. simpl. lia.
Qed.

Lemma or_default_nonempty (default : option string) (s : string) :
  (0 < String.length s)%nat -> or_default default s = Some s.
Proof.
  unfold or_default. intros H.
  destruct (String.length s =? 0)%nat eqn:E; [|reflexivity].
  apply Nat.eqb_eq in E. lia.
Qed.

Lemma getSection_contributes (element : Element) (path : path)
      (section : string) (default : option string) (sec : Element) :
  In sec (findall element path) ->
  title_matches section sec = true ->
  contributes sec (getSection element path section default).
Proof.
  intros Hin Hm.
  destruct (in_split _ _ Hin) as [l1 [l2 Hl]].
  rewrite getSection_bucket, Hl, (bucket_split _ _ _ _ Hm).
  exists (bucket section l1), (bucket section l2).
  apply or_default_nonempty.
  pose proof (section_entry_nonempty _ _ Hm).
  rewrite !length_app. lia.
Qed.

End ClassifierFacts.

(** C1 as stated fails for a title whose text sits inside inline
    markup: the section titled "Methods and Materials" in bold has
    that rendered title, which contains "methods" once lower-cased,
    yet it contributes to no bucket, because the test reads the
    direct text of the title only. *)
Lemma marked_up_title_not_classified :
  In Samples.sec_bold_title
     (findall Samples.doc_bold_title body_sec_path)
  /\ find Samples.sec_bold_title [Child "title"] = Some Samples.title_bold
  /\ Helpers.joined_text Samples.title_bold = "Methods and Materials"
  /\ contains "methods" (lower (Helpers.joined_text Samples.title_bold)) = true
  /\ ~ contributes Samples.sec_bold_title
         (field Methods (PMCArticle._extractBodySections Samples.doc_bold_title))
  /\ PMCArticle._extractBodySections Samples.doc_bold_title
     = (None, None, None, None, None).
Proof.
  split; [simpl; auto|]. split; [reflexivity|]. split; [reflexivity|].
  split; [reflexivity|]. split; [|reflexivity].
  intros [before [after H]]. vm_compute in H. discriminate.
Qed.

(** C1, amended.  The five canonical passes are independent full
    walks over the sections matched by the body-section selector:
    each field is the bucket of its own name over the whole walk.  A
    section whose title has a direct text (the text of its first
    title child, before any inline markup) that contains a canonical
    name once lower-cased contributes to that bucket, so a section
    whose title direct text is "Results and Discussion" contributes
    to the results and to the discussion bucket, and one whose title
    direct text is "Methods and Materials" to the methods bucket. *)
Theorem canonical_passes_independent
        (element : Element) (path : path) (default : option string) :
  (forall c,
      field c (Helpers.getBodySections element path default)
      = or_default default (bucket (canonical_name c) (findall element path)))
  /\ (forall c sec,
         In sec (findall element path) ->
         title_matches (canonical_name c) sec = true ->
         contributes sec (field c (Helpers.getBodySections element path default)))
  /\ (forall sec,
         In sec (findall element path) ->
         findtext sec [Child "title"] = Some "Results and Discussion" ->
         contributes sec
           (field Results (Helpers.getBodySections element path default))
         /\ contributes sec
              (field Discussion (Helpers.getBodySections element path default)))
  /\ (forall sec,
         In sec (findall element path) ->
         findtext sec [Child "title"] = Some "Methods and Materials" ->
         contributes sec
           (field Methods (Helpers.getBodySections element path default))).
Proof.
  assert (Hfield : forall c,
             field c (Helpers.getBodySections element path default)
             = Helpers.getSection element path (canonical_name c) default)
    by (intros []; reflexivity).
  assert (Hcontrib : forall c sec,
             In sec (findall element path) ->
             title_matches (canonical_name c) sec = true ->
             contributes sec
               (field c (Helpers.getBodySections element path default))).
  { intros c sec Hin Hm. rewrite Hfield.
    now apply getSection_contributes. }
  split; [intros c; rewrite Hfield; apply getSection_bucket|].
  split; [exact Hcontrib|].
  split.
  - intros sec Hin Ht.
    split; apply Hcontrib; try exact Hin;
      unfold title_matches; rewrite Ht; reflexivity.
  - intros sec Hin Ht.
    apply Hcontrib; [exact Hin|].
    unfold title_matches; rewrite Ht; reflexivity.
Qed.

Lemma canonical_passes_independent_witness :
  contributes Samples.sec_results_discussion
    (field Results (PMCArticle._extractBodySections Samples.doc_two_names))
  /\ contributes Samples.sec_results_discussion
       (field Discussion (PMCArticle._extractBodySections Samples.doc_two_names))
  /\ contributes Samples.sec_methods_materials
       (field Methods (PMCArticle._extractBodySections Samples.doc_two_names)).
Proof.
  destruct (canonical_passes_independent
              Samples.doc_two_names body_sec_path None) as [_ [_ [H2 H3]]].
  split; [|split].
  - apply (H2 Samples.sec_results_discussion);
      [simpl; auto | reflexivity].
  - apply (H2 Samples.sec_results_discussion);
      [simpl; auto | reflexivity].
  - apply (H3 Samples.sec_methods_materials);
      [simpl; auto | reflexivity].
Defined.

(* ================================================================= *)
(** ** Stripping *)

Section StripFacts.

Lemma lstrip_spec (s : string) :
  exists before,
    s = before ++ lstrip s
    /\ all_space before = true
    /\ starts_with_space (lstrip s) = false.
Proof.
  induction s as [|c s IH].
  - exists EmptyString. auto.
  - cbn [lstrip]. destruct (isspace c) eqn:E.
    + destruct IH as [before [Heq [Hsp Hst]]].
      exists (String c before). cbn [append all_space].
      rewrite <- Heq, E, Hsp. auto.
    + exists EmptyString. cbn [append all_space starts_with_space]. auto.
Qed.

Lemma rstrip_spec (s : string) :
  exists after,
    s = rstrip s ++ after
    /\ all_space after = true
    /\ ends_with_space (rstrip s) = false
    /\ (starts_with_space s = false -> starts_with_space (rstrip s) = false).
Proof.
  induction s as [|c s IH].
  - exists EmptyString. auto.
  - destruct IH as [after [Heq [Hsp [Hend _]]]].
    cbn [rstrip]. destruct (rstrip s) as [|d r] eqn:E.
    + cbn [append] in Heq. subst after.
      destruct (isspace c) eqn:Ec.
      * exists (String c s). cbn [append all_space].
        rewrite Ec, Hsp. auto.
      * exists s. cbn [append ends_with_space starts_with_space]. auto.
    + exists after. cbn [append]. rewrite Heq at 1. cbn [append].
      split; [reflexivity|]. split; [exact Hsp|]. split.
      * exact Hend.
      * cbn [starts_with_space]. auto.
Qed.

(** [strip] cuts off the white space on both sides and nothing else. *)
Lemma strip_spec (s : string) : stripped_to s (strip s).
Proof.
  destruct (lstrip_spec s) as [before [Hb [Hbs Hst]]].
  destruct (rstrip_spec (lstrip s)) as [after [Ha [Has [Hend Hkeep]]]].
  exists before, after. unfold strip.
  split; [now rewrite <- Ha|]. auto.
Qed.

Lemma strip_pieces (frags : list string) :
  Forall2 stripped_to frags (map strip frags).
Proof.
  induction frags as [|f frags IH]; constructor; [apply strip_spec | exact IH].
Qed.

Lemma lstrip_skip (before t : string) :
  all_space before = true -> lstrip (before ++ t) = lstrip t.
Proof.
  induction before as [|c before IH]; [reflexivity|].
  cbn [all_space append lstrip]. intros H.
  apply andb_true_iff in H as [Hc H]. rewrite Hc. now apply IH.
Qed.

Lemma lstrip_keep (t : string) :
  starts_with_space t = false -> lstrip t = t.
Proof.
  destruct t as [|c t]; [reflexivity|].
  cbn [starts_with_space lstrip]. now intros ->.
Qed.

Lemma lstrip_all_space (a : string) :
  all_space a = true -> lstrip a = EmptyString.
Proof.
  induction a as [|c a IH]; [reflexivity|].
  cbn [all_space lstrip]. intros H.
  apply andb_true_iff in H as [Hc H]. rewrite Hc. now apply IH.
Qed.

Lemma rstrip_all_space (a : string) :
  all_space a = true -> rstrip a = EmptyString.
Proof.
  induction a as [|c a IH]; [reflexivity|].
  cbn [all_space rstrip]. intros H.
  apply andb_true_iff in H as [Hc H]. now rewrite (IH H), Hc.
Qed.

Lemma rstrip_keep (piece after : string) :
  ends_with_space piece = false ->
  all_space after = true ->
  rstrip (piece ++ after) = piece.
Proof.
  intros Hend Hsp. induction piece as [|c piece IH].
  - now apply rstrip_all_space.
  - cbn [append rstrip]. destruct piece as [|d piece].
    + cbn [append]. rewrite (rstrip_all_space _ Hsp).
      cbn [ends_with_space] in Hend. now rewrite Hend.
    + cbn [ends_with_space] in Hend. rewrite (IH Hend). reflexivity.
Qed.

(** The piece of a fragment is determined by the fragment. *)
Lemma stripped_to_strip (frag piece : string) :
  stripped_to frag piece <-> piece = strip frag.
Proof.
  split; [|intros ->; apply strip_spec].
  intros [before [after [-> [Hb [Ha [Hst Hend]]]]]].
  unfold strip. rewrite (lstrip_skip _ _ Hb).
  destruct piece as [|c piece].
  - cbn [append]. now rewrite (lstrip_all_space _ Ha).
  - rewrite lstrip_keep by exact Hst.
    symmetry. now apply rstrip_keep.
Qed.

End StripFacts.

(** C7.  The text rendered for a title or a paragraph is the
    space-join of every text fragment reached by the text-and-tail
    traversal of the node, one piece per fragment in traversal order,
    each piece being its fragment with the leading and trailing white
    space cut off (and nothing else); this is the text the classifier
    appends for a title and for every paragraph.  A title with direct
    text "Intro" followed by an empty inline element with tail
    "duction" renders as "Intro duction", neither "Introduction" nor
    empty; so does the same title with white space and line breaks
    around both fragments; a fragment of white space only leaves an
    empty piece, which is still joined. *)
Theorem rendering_joins_stripped_fragments :
  (forall node,
      exists pieces,
        Helpers.joined_text node = join " " pieces
        /\ Forall2 stripped_to (itertext node) pieces)
  /\ (forall frag piece, stripped_to frag piece <-> piece = strip frag)
  /\ (forall tag attrib text children tail,
      Helpers.joined_text (mkElement tag attrib text children tail)
      = join " "
          (map strip
               (fragment text
                ++ flat_map (fun c => itertext c ++ fragment (ET.tail c))
                            children)%list))
  /\ (forall tag attrib a inline tail,
         a <> EmptyString ->
         Forall (fun c => text c = None /\ children c = []) inline ->
         Helpers.joined_text (mkElement tag attrib (Some a) inline tail)
         = join " "
             (map strip (a :: flat_map (fun c => fragment (ET.tail c)) inline)))
  /\ (forall section ret_str sec title,
         find sec [Child "title"] = Some title ->
         title_matches section sec = true ->
         Helpers.section_step section ret_str sec
         = ret_str ++ join " " (map strip (itertext title)) ++ ": "
           ++ String.concat EmptyString
                (map (fun p => join " " (map strip (itertext p)) ++ nl ++ nl)
                     (findall sec [Self; Descendant "p"])))
  /\ Helpers.joined_text Samples.title_intro = "Intro duction"
  /\ Helpers.joined_text Samples.title_intro <> "Introduction"
  /\ Helpers.joined_text Samples.title_intro <> EmptyString
  /\ Helpers.getBody Samples.doc_intro body_path None
     = Some ("Intro duction: First." ++ nl ++ nl)
  /\ Helpers.getSection Samples.doc_intro body_sec_path "intro" None
     = Some ("Intro duction: First." ++ nl ++ nl)
  /\ itertext Samples.title_padded = [nl ++ "  Intro "; " duction " ++ nl]
  /\ Helpers.joined_text Samples.title_padded = "Intro duction"
  /\ itertext Samples.p_pretty = [nl ++ " "; "x"; nl]
  /\ Helpers.joined_text Samples.p_pretty = " x "
  /\ strip (nl ++ "  Intro ") = "Intro"
  /\ strip "a  b" = "a  b".
Proof.
  split.
  { intros node. exists (map strip (itertext node)).
    split; [reflexivity | apply strip_pieces]. }
  split; [exact stripped_to_strip|].
  split; [reflexivity|].
  split.
  { intros tag attrib a inline tail Ha Hinl.
    unfold Helpers.joined_text. f_equal. f_equal.
    cbn [itertext]. destruct a as [|x a]; [congruence|].
    cbn [fragment]. change ([String x a] ++ ?l)%list with (String x a :: l).
    f_equal.
    induction Hinl as [|c inline [Hc1 Hc2] _ IH]; [reflexivity|].
    cbn [flat_map]. rewrite IH. f_equal.
    destruct c as [tg at' tx cs tl]. simpl in Hc1, Hc2. subst tx cs.
    reflexivity. }
  split.
  { intros section ret_str sec title Ht Hm.
    rewrite section_step_eq, Hm. unfold section_entry. rewrite Ht.
    reflexivity. }
  repeat split; try reflexivity; discriminate.
Qed.

Lemma rendering_joins_stripped_fragments_witness :
  Helpers.joined_text Samples.title_intro
  = join " " (map strip ["Intro"; "duction"]).
Proof.
  destruct rendering_joins_stripped_fragments as [_ [_ [_ [H _]]]].
  apply (H "title" [] "Intro" [mkElement "ref" [] None [] (Some "duction")] None).
  - discriminate.
  - repeat constructor.
Defined.

(** C9 as stated fails on its own example: the title with direct
    text "Metho" and an inline child with tail "ds" renders as
    "Metho ds", which does not contain "methods". *)
Lemma split_title_rendering_lacks_keyword :
  ~ (Helpers.getSection Samples.doc_split body_sec_path "methods" None = None
     /\ contains "methods" (lower (Helpers.joined_text Samples.title_split))
        = true).
Proof. intros [_ H]. vm_compute in H. discriminate. Qed.

(** C9, amended.  The match test of a section reads only the direct
    text of its first title child, while the text appended for a
    matching section starts with the full rendering of that title.
    A title with direct text "Metho" and an inline child with tail
    "ds" is not classified under "methods"; its rendering is
    "Metho ds" and does not contain the keyword either.  A title
    whose keyword lies wholly after the inline markup (direct text
    "Materials and ", tail "Methods") is not classified although its
    rendering contains the keyword. *)
Theorem title_test_reads_direct_text :
  (forall section ret_str sec,
      Helpers.section_step section ret_str sec
      = ret_str
        ++ match find sec [Child "title"] with
           | Some title =>
               if contains section
                    (lower (match text title with Some s => s | None => EmptyString end))
               then Helpers.joined_text title ++ ": " ++ paragraphs_text sec
               else EmptyString
           | None => EmptyString
           end)
  /\ Helpers.getSection Samples.doc_split body_sec_path "methods" None = None
  /\ Helpers.joined_text Samples.title_split = "Metho ds"
  /\ contains "methods" (lower (Helpers.joined_text Samples.title_split))
     = false
  /\ Helpers.getSection Samples.doc_late body_sec_path "methods" None = None
  /\ contains "methods" (lower (Helpers.joined_text Samples.title_late))
     = true.
Proof.
  split.
  - intros section ret_str sec. rewrite section_step_eq.
    unfold title_matches, section_entry.
    destruct (find sec [Child "title"]) as [title|] eqn:Ht.
    + rewrite (findtext_of_find _ _ _ Ht). reflexivity.
    + rewrite (findtext_None _ _ Ht). reflexivity.
  - repeat split; reflexivity.
Qed.

(** C10 as stated fails when a later section matches the same name
    and has paragraphs: the field then ends with the blank line of
    the last paragraph. *)
Lemma title_only_field_may_end_with_paragraph :
  In Samples.sec_title_only
     (findall Samples.doc_title_only_then_full body_sec_path)
  /\ title_matches "methods" Samples.sec_title_only = true
  /\ findall Samples.sec_title_only [Self; Descendant "p"] = []
  /\ ~ (exists s,
           Helpers.getSection Samples.doc_title_only_then_full
                              body_sec_path "methods" None = Some s
           /\ endswith s ": " = true).
Proof.
  split; [simpl; auto|]. split; [reflexivity|]. split; [reflexivity|].
  intros [s [Hs He]]. vm_compute in Hs. injection Hs as <-.
  vm_compute in He. discriminate.
Qed.

(** C10, amended.  A section whose title matches a canonical name and
    which has no paragraph descendant still adds its rendered title
    followed by ": " to the bucket, so the field is present and not
    empty; it ends in ": " when no later section of the walk matches
    the same name. *)
Theorem title_only_section_contributes
        (element : Element) (path : path) (section : string)
        (default : option string) (sec : Element) :
  In sec (findall element path) ->
  title_matches section sec = true ->
  findall sec [Self; Descendant "p"] = [] ->
  exists title,
    find sec [Child "title"] = Some title
    /\ section_entry sec = Helpers.joined_text title ++ ": "
    /\ (exists before after,
           Helpers.getSection element path section default
           = Some (before ++ (Helpers.joined_text title ++ ": ") ++ after)
           /\ (0 < String.length
                     (before ++ (Helpers.joined_text title ++ ": ") ++ after))%nat)
    /\ (forall l1 l2,
           findall element path = (l1 ++ sec :: l2)%list ->
           (forall later, In later l2 -> title_matches section later = false) ->
           exists before,
             Helpers.getSection element path section default
             = Some (before ++ Helpers.joined_text title ++ ": ")
             /\ endswith (before ++ Helpers.joined_text title ++ ": ") ": "
                = true).
Proof.
  intros Hin Hm Hp.
  destruct (title_matches_find _ _ Hm) as [title Ht].
  assert (Hentry : section_entry sec = Helpers.joined_text title ++ ": ").
  { unfold section_entry, paragraphs_text. rewrite Ht, Hp. reflexivity. }
  exists title. split; [exact Ht|]. split; [exact Hentry|]. split.
  - destruct (getSection_contributes element path section default sec Hin Hm)
      as [before [after H]].
    exists before, after. rewrite H, Hentry. split; [reflexivity|].
    rewrite !length_app. simpl. lia.
  - intros l1 l2 Hl Hlater.
    exists (bucket section l1).
    rewrite getSection_bucket, Hl, (bucket_split _ _ _ _ Hm), Hentry.
    assert (Hl2 : bucket section l2 = EmptyString).
    { unfold bucket.
      now rewrite (filter_none _ _ Hlater). }
    rewrite Hl2, !app_empty_r. split.
    + apply or_default_nonempty. rewrite !length_app. simpl. lia.
    + rewrite <- app_assoc. apply endswith_app.
Qed.

Lemma title_only_section_contributes_witness :
  exists title,
    find Samples.sec_title_only [Child "title"] = Some title
    /\ section_entry Samples.sec_title_only
       = Helpers.joined_text title ++ ": "
    /\ exists before,
         Helpers.getSection Samples.doc_title_only body_sec_path "methods" None
         = Some (before ++ Helpers.joined_text title ++ ": ").
Proof.
  destruct (title_only_section_contributes
              Samples.doc_title_only body_sec_path "methods" None
              Samples.sec_title_only)
    as [title [Ht [He [_ Hlast]]]].
  - simpl; auto.
  - reflexivity.
  - reflexivity.
  - exists title. split; [exact Ht|]. split; [exact He|].
    assert (Hnone : forall later : Element,
               In later [] -> title_matches "methods" later = false)
      by (intros later []).
    destruct (Hlast [] [] eq_refl Hnone) as [before [H _]].
    exists before. exact H.
Defined.

(* ================================================================= *)
(** ** Bodies without sections *)

Section FlattenFacts.

Import Helpers.

Lemma flat_map_nil {X Y : Type} (f : X -> list Y) (l : list X) :
  flat_map f l = [] -> forall x, In x l -> f x = [].
Proof.
  induction l as [|a l IH]; intros H x Hx; [destruct Hx|].
  cbn [flat_map] in H. apply List.app_eq_nil in H as [Ha Hl].
  destruct Hx as [<-|Hx]; [exact Ha | now apply IH].
Qed.

(** No section matched by [.//body/sec]: no body has a [sec] child. *)
Lemma body_without_sec (xml_element : Element) :
  findall xml_element body_sec_path = [] ->
  forall b, In b (findall xml_element body_path) ->
            find b [Child "sec"] = None.
Proof.
  intros H b Hb.
  change body_sec_path with (body_path ++ [Child "sec"])%list in H.
  rewrite findall_snoc in H. cbn [select] in H.
  pose proof (flat_map_nil _ _ H b Hb) as Hnil.
  unfold find, findall. cbn [fold_left select flat_map].
  rewrite Hnil. reflexivity.
Qed.

Lemma flatten_step_no_sec (sep ret_str : string) (top_level : Element) :
  find top_level [Child "sec"] = None ->
  flatten_step sep ret_str top_level
  = ret_str
    ++ String.concat EmptyString
         (map (fun sub => joined_text sub ++ sep) (children top_level)).
Proof.
  intros H. unfold flatten_step. rewrite H. apply fold_left_append.
Qed.

Lemma flatten_walk_no_sec (sep : string) (bodies : list Element) :
  (forall b, In b bodies -> find b [Child "sec"] = None) ->
  forall ret_str,
    fold_left (flatten_step sep) bodies ret_str
    = ret_str
      ++ String.concat EmptyString
           (map (fun b =>
                   String.concat EmptyString
                     (map (fun sub => joined_text sub ++ sep) (children b)))
                bodies).
Proof.
  induction bodies as [|b bodies IH]; intros H ret_str.
  - simpl. now rewrite app_empty_r.
  - cbn [fold_left map].
    rewrite IH by (intros x Hx; apply H; now right).
    rewrite flatten_step_no_sec by (apply H; now left).
    now rewrite concat_empty_cons, app_assoc.
Qed.

Lemma children_text_empty (b : Element) :
  children_text b = EmptyString <-> children b = [].
Proof.
  unfold children_text. split.
  - intros H. destruct (children b) as [|c cs]; [reflexivity|].
    rewrite concat_empty_nil_iff in H.
    specialize (H _ (or_introl eq_refl)).
    apply (f_equal String.length) in H.
    rewrite !length_app in H. simpl in H. lia.
  - intros ->. reflexivity.
Qed.

Lemma getSection_no_match (element : Element) (path : path)
      (section : string) (default : option string) :
  findall element path = [] ->
  getSection element path section default = default.
Proof. intros H. unfold getSection. rewrite H. reflexivity. Qed.

End FlattenFacts.

(** C6 as stated fails for a body that holds a bare paragraph and no
    section: the whole-body field is present. *)
Lemma bare_paragraph_body_is_present :
  findall Samples.doc_bare_paragraph [Self; Descendant "sec"] = []
  /\ ~ (PMCArticle._extractBodySections Samples.doc_bare_paragraph
        = (None, None, None, None, None)
        /\ PMCArticle._extractBody Samples.doc_bare_paragraph = None).
Proof.
  split; [reflexivity|]. intros [_ H]. vm_compute in H. discriminate.
Qed.

(** C6, amended.  When the body-section selector matches no section,
    all five canonical fields are the absent default.  The whole-body
    field is then the rendering of the children of every body, each
    followed by a blank line; it is absent exactly when no body has a
    child, and it is never the empty string. *)
Theorem no_sections_fields (xml_element : Element) :
  findall xml_element body_sec_path = [] ->
  (forall default,
      Helpers.getBodySections xml_element body_sec_path default
      = (default, default, default, default, default))
  /\ PMCArticle._extractBodySections xml_element
     = (None, None, None, None, None)
  /\ PMCArticle._extractBody xml_element
     = or_default None
         (String.concat EmptyString (map children_text (findall xml_element body_path)))
  /\ (PMCArticle._extractBody xml_element = None
      <-> forall b, In b (findall xml_element body_path) -> children b = [])
  /\ PMCArticle._extractBody xml_element <> Some EmptyString.
Proof.
  intros H.
  assert (Hsec : forall default,
             Helpers.getBodySections xml_element body_sec_path default
             = (default, default, default, default, default)).
  { intros default. unfold Helpers.getBodySections.
    now rewrite !getSection_no_match by exact H. }
  assert (Hbody : PMCArticle._extractBody xml_element
                  = or_default None
                      (String.concat EmptyString
                         (map children_text (findall xml_element body_path)))).
  { unfold PMCArticle._extractBody, Helpers.getBody, Helpers.flatten.
    fold body_path.
    rewrite flatten_walk_no_sec by (apply body_without_sec; exact H).
    reflexivity. }
  split; [exact Hsec|]. split; [apply Hsec|]. split; [exact Hbody|].
  rewrite Hbody. unfold or_default. split.
  - destruct (String.length _ =? 0)%nat eqn:E.
    + split; [|reflexivity]. intros _ b Hb.
      apply Nat.eqb_eq, length_zero in E.
      rewrite concat_empty_nil_iff in E.
      apply children_text_empty. apply E. now apply in_map.
    + split; [discriminate|]. intros Hall. exfalso.
      apply Nat.eqb_neq in E. apply E. apply length_zero.
      apply concat_empty_nil_iff. intros x Hx.
      apply in_map_iff in Hx as [b [<- Hb]].
      apply children_text_empty. now apply Hall.
  - destruct (String.length _ =? 0)%nat eqn:E; [discriminate|].
    intros [= Hs]. rewrite Hs in E. discriminate.
Qed.

Lemma no_sections_fields_witness :
  PMCArticle._extractBodySections Samples.doc_empty_body
  = (None, None, None, None, None)
  /\ PMCArticle._extractBody Samples.doc_empty_body = None.
Proof.
  destruct (no_sections_fields Samples.doc_empty_body eq_refl)
    as [_ [H1 [_ [H2 _]]]].
  split; [exact H1|].
  apply H2. intros b Hb. simpl in Hb. destruct Hb as [<-|[]]. reflexivity.
Defined.

(* ================================================================= *)
(** ** Date resolvers *)

Section DateFacts.

Lemma opt_eqb_Some (a : option string) (v : string) :
  opt_eqb a (Some v) = true <-> a = Some v.
Proof.
  destruct a as [x|]; simpl.
  - rewrite String.eqb_eq. split; congruence.
  - split; discriminate.
Qed.

Lemma is_epub_true (d : Element) :
  PMCArticle.is_epub d = true <-> get d "pub-type" = Some "epub".
Proof. apply opt_eqb_Some. Qed.

Lemma is_epub_false (d : Element) :
  PMCArticle.is_epub d = false <-> get d "pub-type" <> Some "epub".
Proof.
  rewrite <- is_epub_true. destruct (PMCArticle.is_epub d); split;
    congruence.
Qed.

Lemma is_electronic_pub_true (d : Element) :
  is_electronic_pub d = true
  <-> get d "date-type" = Some "pub"
      /\ get d "publication-format" = Some "electronic".
Proof.
  unfold is_electronic_pub. now rewrite andb_true_iff, !opt_eqb_Some.
Qed.

Lemma last_cons {X : Type} (x : X) (l : list X) (d : X) :
  last (x :: l) d = last l x.
Proof.
  revert x d. induction l as [|y l IH]; intros x d; [reflexivity|].
  change (last (x :: y :: l) d) with (last (y :: l) d).
  now rewrite !IH.
Qed.

(** The loop over the date nodes keeps the last node of pub-type
    epub, or its initial value when there is none. *)
Lemma epub_loop (dates : list Element) :
  forall publication_date,
    fold_left (fun publication_date date =>
                 if PMCArticle.is_epub date then Some date
                 else publication_date)
              dates publication_date
    = last (map Some (filter PMCArticle.is_epub dates)) publication_date.
Proof.
  induction dates as [|d dates IH]; intros pd; [reflexivity|].
  cbn [fold_left filter]. rewrite IH.
  destruct (PMCArticle.is_epub d); [|reflexivity].
  cbn [map]. now rewrite last_cons.
Qed.

Lemma last_map_Some {X : Type} (l : list X) :
  last (map Some l) None = None -> l = [].
Proof.
  destruct l as [|x l]; [reflexivity|].
  cbn [map]. rewrite last_cons. intros H. exfalso.
  revert x H. induction l as [|y l IH]; intros x H; [discriminate|].
  cbn [map] in H. rewrite last_cons in H. now apply IH in H.
Qed.

Lemma last_map_Some_in {X : Type} (l : list X) (x : X) :
  last (map Some l) None = Some x -> In x l.
Proof.
  induction l as [|y l IH]; [discriminate|].
  cbn [map]. rewrite last_cons. destruct l as [|z l].
  - simpl. intros [= ->]. now left.
  - intros H. right. apply IH. cbn [map]. rewrite last_cons.
    cbn [map] in H. now rewrite last_cons in H.
Qed.

Lemma filter_filter {X : Type} (f g : X -> bool) (l : list X) :
  filter g (filter f l) = filter (fun x => f x && g x) l.
Proof.
  induction l as [|a l IH]; [reflexivity|].
  cbn [filter]. destruct (f a) eqn:Ef; cbn [filter andb].
  - now rewrite IH.
  - exact IH.
Qed.

Lemma findall_electronic_pub (xml_element : Element) :
  findall xml_element PMCArticle.electronic_pub_path
  = filter is_electronic_pub
           (findall xml_element [Self; Descendant "pub-date"]).
Proof.
  unfold PMCArticle.electronic_pub_path, findall.
  cbn [fold_left select]. apply filter_filter.
Qed.

(** The three cases of the choice of the date node. *)
Lemma selected_date_node_cases (xml_element : Element) :
  let dates := findall xml_element [Self; Descendant "pub-date"] in
  PMCArticle.selected_date_node xml_element
  = match last (map Some (filter PMCArticle.is_epub dates)) None with
    | Some d => Some d
    | None =>
        match hd_error (filter is_electronic_pub dates) with
        | Some d => Some d
        | None => hd_error dates
        end
    end.
Proof.
  intros dates. unfold PMCArticle.selected_date_node.
  rewrite epub_loop. fold dates.
  destruct (last _ None) as [d|]; [reflexivity|].
  unfold find. rewrite findall_electronic_pub. fold dates.
  destruct (hd_error (filter is_electronic_pub dates)); reflexivity.
Qed.

(** A failing field makes the body of the resolver raise. *)
Lemma date_of_node_raises (node : Element) (year month day : string) :
  date_fields_fail node year month day ->
  raises (date_of_node (Some node) year month day).
Proof.
  unfold date_fields_fail, date_of_node, getContent_of. cbn [bind].
  intros [[e H]|[[e H]|[[e H]|[y [m [d [Hy [Hm [Hd Hv]]]]]]]]].
  - rewrite H. now exists e.
  - rewrite H.
    destruct (PyInt.int (Helpers.getContent node _ None nl)) as [y|e'];
      cbn [bind]; [now exists e | now exists e'].
  - rewrite H.
    destruct (PyInt.int (Helpers.getContent node _ None nl)) as [y|e1];
      cbn [bind]; [|now exists e1].
    destruct (PyInt.int (Helpers.getContent node [Self; Descendant month] _ nl))
      as [m|e2]; cbn [bind]; [now exists e | now exists e2].
  - rewrite Hy, Hm, Hd. cbn [bind]. unfold PyDate.new. rewrite Hv.
    now exists ValueError.
Qed.

Lemma try_except_raises {X : Type} (body : result X) :
  raises body -> try_except (x <- body ;; Ok (Some x)) (fun _ => Ok None)
                 = Ok None.
Proof. intros [e ->]. reflexivity. Qed.

Lemma try_except_total {X : Type} (body : result X) :
  exists v, try_except (x <- body ;; Ok (Some x)) (fun _ => Ok None) = Ok v.
Proof. destruct body as [x|e]; simpl; eauto. Qed.

End DateFacts.

(** C3.  The full-text resolver reads the date from a pub-date node
    of pub-type "epub" when one exists (the last one in document
    order); otherwise from a pub-date node with date-type "pub" and
    publication-format "electronic" (the first one); otherwise from
    the first pub-date node in document order.  With three date nodes
    tagged electronic-pub, print-pub and untyped, in this order, the
    electronic-pub node is chosen. *)
Theorem date_node_priority (xml_element : Element) :
  let dates := findall xml_element [Self; Descendant "pub-date"] in
  ((exists d, In d dates /\ get d "pub-type" = Some "epub") ->
   exists d,
     PMCArticle.selected_date_node xml_element = Some d
     /\ In d dates /\ get d "pub-type" = Some "epub"
     /\ Some d = last (map Some (filter PMCArticle.is_epub dates)) None)
  /\ ((forall d, In d dates -> get d "pub-type" <> Some "epub") ->
      (exists d, In d dates /\ get d "date-type" = Some "pub"
                 /\ get d "publication-format" = Some "electronic") ->
      exists d,
        PMCArticle.selected_date_node xml_element = Some d
        /\ In d dates /\ get d "date-type" = Some "pub"
        /\ get d "publication-format" = Some "electronic"
        /\ Some d = hd_error (filter is_electronic_pub dates))
  /\ ((forall d, In d dates -> get d "pub-type" <> Some "epub") ->
      (forall d, In d dates ->
                 ~ (get d "date-type" = Some "pub"
                    /\ get d "publication-format" = Some "electronic")) ->
      PMCArticle.selected_date_node xml_element = hd_error dates)
  /\ PMCArticle._extractPublicationDate xml_element
     = try_except
         (d <- date_of_node (PMCArticle.selected_date_node xml_element)
                            "year" "month" "day" ;;
          Ok (Some d))
         (fun _ => Ok None)
  /\ PMCArticle.selected_date_node Samples.doc_three_dates
     = Some Samples.date_epub
  /\ PMCArticle._extractPublicationDate Samples.doc_three_dates
     = Ok (Some (PyDate.mkDate 2020 3 4))
  /\ PMCArticle.selected_date_node Samples.doc_epub_last
     = Some Samples.date_epub
  /\ PMCArticle.selected_date_node Samples.doc_electronic
     = Some Samples.date_electronic
  /\ PMCArticle.selected_date_node Samples.doc_print_untyped
     = Some Samples.date_ppub.
Proof.
  intros dates.
  pose proof (selected_date_node_cases xml_element) as Hsel.
  cbv zeta in Hsel. fold dates in Hsel.
  assert (Hno_epub : (forall d, In d dates -> get d "pub-type" <> Some "epub") ->
                     filter PMCArticle.is_epub dates = []).
  { intros H. apply filter_none. intros d Hd.
    apply is_epub_false. now apply H. }
  split.
  { intros [d0 [Hin0 Hd0]].
    destruct (last (map Some (filter PMCArticle.is_epub dates)) None)
      as [d|] eqn:El.
    - exists d. apply last_map_Some_in in El as Hin.
      apply filter_In in Hin as [Hin He].
      apply is_epub_true in He. auto.
    - apply last_map_Some in El.
      assert (Hf : In d0 (filter PMCArticle.is_epub dates))
        by (apply filter_In; split; [exact Hin0 | now apply is_epub_true]).
      rewrite El in Hf. destruct Hf. }
  split.
  { intros Hne [d0 [Hin0 [Hd1 Hd2]]].
    rewrite (Hno_epub Hne) in Hsel. cbn [map last] in Hsel.
    destruct (hd_error (filter is_electronic_pub dates)) as [d|] eqn:Eh.
    - exists d. apply hd_error_filter_Some in Eh as [Hin He].
      apply is_electronic_pub_true in He as [He1 He2]. auto.
    - exfalso. rewrite hd_error_filter_None in Eh.
      specialize (Eh d0 Hin0).
      assert (is_electronic_pub d0 = true)
        by now apply is_electronic_pub_true.
      congruence. }
  split.
  { intros Hne Hnp.
    rewrite (Hno_epub Hne) in Hsel. cbn [map last] in Hsel.
    rewrite Hsel.
    replace (hd_error (filter is_electronic_pub dates)) with (@None Element);
      [reflexivity|].
    symmetry. apply hd_error_filter_None. intros d Hd.
    destruct (is_electronic_pub d) eqn:E; [|reflexivity].
    apply is_electronic_pub_true in E. exfalso. now apply (Hnp d Hd). }
  repeat split; reflexivity.
Qed.

Lemma date_node_priority_witness :
  exists d,
    PMCArticle.selected_date_node Samples.doc_three_dates = Some d
    /\ get d "pub-type" = Some "epub".
Proof.
  destruct (date_node_priority Samples.doc_three_dates) as [H _].
  destruct H as [d [Hs [_ [He _]]]].
  - exists Samples.date_epub. split; [simpl; auto | reflexivity].
  - exists d. split; assumption.
Defined.

(** C4.  In either schema, when year, month or day of the selected
    date node fails integer parsing or the three numbers are not a
    calendar date (an absent year and the year "abcd" included), the
    date step returns the absent date and does not raise, and the
    record is built with every other field holding what its extractor
    returns, as it does for a document with a valid date. *)
Theorem malformed_date_is_absent (xml_element : Element) :
  (forall node,
      PubMedArticle.selected_date_node xml_element = Some node ->
      date_fields_fail node "Year" "Month" "Day" ->
      PubMedArticle._extractPublicationDate xml_element = Ok None
      /\ exists r,
          PubMedArticle._initializeFromXML xml_element = Ok r
          /\ PubMedArticle.publication_date r = None
          /\ pubmed_fields_populated xml_element r)
  /\ (forall node,
         PMCArticle.selected_date_node xml_element = Some node ->
         date_fields_fail node "year" "month" "day" ->
         PMCArticle._extractPublicationDate xml_element = Ok None
         /\ exists r,
             PMCArticle._initializeFromXML xml_element = Ok r
             /\ PMCArticle.publication_date r = None
             /\ pmc_fields_populated xml_element r)
  /\ (exists r,
         PubMedArticle._initializeFromXML xml_element = Ok r
         /\ PubMedArticle._extractPublicationDate xml_element
            = Ok (PubMedArticle.publication_date r)
         /\ pubmed_fields_populated xml_element r)
  /\ (exists r,
         PMCArticle._initializeFromXML xml_element = Ok r
         /\ PMCArticle._extractPublicationDate xml_element
            = Ok (PMCArticle.publication_date r)
         /\ pmc_fields_populated xml_element r)
  /\ PubMedArticle._extractPublicationDate Samples.doc_pubmed_abcd = Ok None
  /\ PubMedArticle._extractPublicationDate Samples.doc_pubmed_no_year = Ok None
  /\ PubMedArticle._extractPublicationDate Samples.doc_pubmed_feb30 = Ok None
  /\ PubMedArticle._extractPublicationDate Samples.doc_pubmed_2020
     = Ok (Some (PyDate.mkDate 2020 3 4))
  /\ PubMedArticle._extractPublicationDate Samples.doc_pubmed_year_only
     = Ok (Some (PyDate.mkDate 2020 1 1))
  /\ PMCArticle._extractPublicationDate Samples.doc_pmc_abcd = Ok None.
Proof.
  assert (Hpubmed : forall v,
             PubMedArticle._extractPublicationDate xml_element = Ok v ->
             exists r,
               PubMedArticle._initializeFromXML xml_element = Ok r
               /\ PubMedArticle.publication_date r = v
               /\ pubmed_fields_populated xml_element r).
  { intros v Hv. unfold PubMedArticle._initializeFromXML. rewrite Hv.
    cbn [bind]. eexists. split; [reflexivity|].
    split; [reflexivity|]. repeat split. }
  assert (Hpmc : forall v,
             PMCArticle._extractPublicationDate xml_element = Ok v ->
             exists r,
               PMCArticle._initializeFromXML xml_element = Ok r
               /\ PMCArticle.publication_date r = v
               /\ pmc_fields_populated xml_element r).
  { intros v Hv. unfold PMCArticle._initializeFromXML.
    unfold PMCArticle._extractBodySections at 1.
    unfold Helpers.getBodySections at 1. cbv zeta. rewrite Hv.
    cbn [bind]. eexists. split; [reflexivity|].
    split; [reflexivity|]. repeat split. }
  split.
  { intros node Hsel Hfail.
    assert (Hd : PubMedArticle._extractPublicationDate xml_element = Ok None).
    { unfold PubMedArticle._extractPublicationDate. cbv zeta. rewrite Hsel.
      apply try_except_raises, date_of_node_raises, Hfail. }
    split; [exact Hd | exact (Hpubmed None Hd)]. }
  split.
  { intros node Hsel Hfail.
    assert (Hd : PMCArticle._extractPublicationDate xml_element = Ok None).
    { unfold PMCArticle._extractPublicationDate. cbv zeta. rewrite Hsel.
      apply try_except_raises, date_of_node_raises, Hfail. }
    split; [exact Hd | exact (Hpmc None Hd)]. }
  split.
  { destruct (try_except_total
                (date_of_node (PubMedArticle.selected_date_node xml_element)
                              "Year" "Month" "Day")) as [v Hv].
    destruct (Hpubmed v Hv) as [r [Hr [Hp Hf]]].
    exists r. rewrite Hp. auto. }
  split.
  { destruct (try_except_total
                (date_of_node (PMCArticle.selected_date_node xml_element)
                              "year" "month" "day")) as [v Hv].
    destruct (Hpmc v Hv) as [r [Hr [Hp Hf]]].
    exists r. rewrite Hp. auto. }
  repeat split; reflexivity.
Qed.

Lemma malformed_date_is_absent_witness :
  PubMedArticle._extractPublicationDate Samples.doc_pubmed_abcd = Ok None
  /\ exists r,
      PubMedArticle._initializeFromXML Samples.doc_pubmed_abcd = Ok r
      /\ PubMedArticle.publication_date r = None
      /\ PubMedArticle.title r = Some "T"
      /\ PubMedArticle.keywords r = [Some "k"].
Proof.
  destruct (malformed_date_is_absent Samples.doc_pubmed_abcd) as [H _].
  destruct (H (mkElement "PubMedPubDate" [("PubStatus", "pubmed")] None
                 [Samples.leaf "Year" "abcd"; Samples.leaf "Month" "3";
                  Samples.leaf "Day" "4"] None))
    as [Hd [r [Hr [Hp Hf]]]].
  - reflexivity.
  - left. exists ValueError. reflexivity.
  - split; [exact Hd|]. exists r. split; [exact Hr|]. split; [exact Hp|].
    destruct Hf as [_ [Ht [Hk _]]]. rewrite Ht, Hk. split; reflexivity.
Defined.

(* ================================================================= *)
(** ** Field extractors *)

Lemma texts_not_None_textless (result : list Element) :
  (forall sub, In sub result -> text sub = None) ->
  Helpers.texts_not_None result = [].
Proof.
  induction result as [|sub rest IH]; intros Hall; [reflexivity|].
  cbn [Helpers.texts_not_None]. rewrite (Hall sub (or_introl eq_refl)).
  apply IH. intros x Hx. apply Hall. now right.
Qed.

(** C2.  [getContent] returns the default only when the selector
    matches no node.  When nodes match, it returns the join of the
    texts that are not [None], which is the empty string when every
    matched node is without text: for
    [<PubMedPubDate><Year>2020</Year><Month/></PubMedPubDate>], the
    selector [.//Month] and the default "1" the result is the empty
    string and not "1". *)
Theorem getContent_textless_match_is_empty :
  (forall element path default separator,
      findall element path = [] ->
      Helpers.getContent element path default separator = default)
  /\ (forall element path default separator,
         findall element path <> [] ->
         Helpers.getContent element path default separator
         = Some (join separator
                      (Helpers.texts_not_None (findall element path))))
  /\ (forall element path default separator,
         findall element path <> [] ->
         (forall sub, In sub (findall element path) -> text sub = None) ->
         Helpers.getContent element path default separator = Some EmptyString)
  /\ Helpers.getContent Samples.date_textless_month
       [Self; Descendant "Month"] (Some "1") nl = Some EmptyString
  /\ Helpers.getContent Samples.date_textless_month
       [Self; Descendant "Month"] (Some "1") nl <> Some "1".
Proof.
  assert (Hsome : forall element path default separator,
             findall element path <> [] ->
             Helpers.getContent element path default separator
             = Some (join separator
                          (Helpers.texts_not_None (findall element path)))).
  { intros element path default separator H. unfold Helpers.getContent.
    destruct (findall element path); [congruence | reflexivity]. }
  split.
  { intros element path default separator H. unfold Helpers.getContent.
    now rewrite H. }
  split; [exact Hsome|].
  split.
  { intros element path default separator Hne Hall.
    rewrite Hsome by exact Hne.
    now rewrite (texts_not_None_textless _ Hall). }
  split; [reflexivity | discriminate].
Qed.

Lemma getContent_textless_match_is_empty_witness :
  Helpers.getContent Samples.date_textless_month
    [Self; Descendant "Month"] (Some "1") nl = Some EmptyString.
Proof.
  destruct getContent_textless_match_is_empty as [_ [_ [H _]]].
  apply H.
  - discriminate.
  - intros sub [<-|[]]. reflexivity.
Defined.

(** C5.  Keyword extraction returns one entry per matched keyword
    node, in document order, and the entry of a node without text is
    [None]: the test of the comprehension is on the node, not on its
    text, so nothing is dropped.  Three keyword nodes of which the
    second has no text give a list of three entries with [None] in
    the middle, in both schemas. *)
Theorem keywords_keep_textless_nodes :
  (forall xml_element,
      PubMedArticle._extractKeywords xml_element
      = map text (findall xml_element [Self; Descendant "Keyword"]))
  /\ (forall xml_element,
         PMCArticle._extractKeywords xml_element
         = map text (findall xml_element
                       [Self; Descendant "kwd-group"; Child "kwd"]))
  /\ (forall xml_element,
         List.length (PubMedArticle._extractKeywords xml_element)
         = List.length (findall xml_element [Self; Descendant "Keyword"]))
  /\ PubMedArticle._extractKeywords Samples.doc_keywords
     = [Some "alpha"; None; Some "beta"]
  /\ PMCArticle._extractKeywords Samples.doc_pmc_keywords
     = [Some "alpha"; None; Some "beta"].
Proof.
  assert (Hall : forall l : list Element,
             filter (fun keyword => is_not_None (Some keyword)) l = l).
  { induction l as [|x l IH]; [reflexivity|]. cbn. f_equal. exact IH. }
  split; [intros xml_element; unfold PubMedArticle._extractKeywords;
          now rewrite Hall|].
  split; [intros xml_element; unfold PMCArticle._extractKeywords;
          now rewrite Hall|].
  split; [intros xml_element; unfold PubMedArticle._extractKeywords;
          now rewrite Hall, length_map|].
  split; reflexivity.
Qed.

(* ================================================================= *)
(** ** Further properties of [batches] *)

(** X1.  A batch size of zero makes [batches] raise [ValueError] (the
    step of [range] is zero); a negative size yields no batch at
    all, whatever the sequence. *)
Theorem batches_nonpositive_size (A : Type) (l : list A) (n : Z) :
  (n <= 0)%Z ->
  Helpers.batches l n = if (n =? 0)%Z then Raise ValueError else Ok [].
Proof.
  intros Hn. unfold Helpers.batches, Helpers.py_range.
  destruct (n =? 0)%Z eqn:E0; [reflexivity|].
  apply Z.eqb_neq in E0.
  destruct (0 <? n)%Z eqn:E1; [apply Z.ltb_lt in E1; lia|].
  replace (Z.to_nat (0 - Z.of_nat (List.length l))) with O by lia.
  reflexivity.
Qed.

Lemma batches_nonpositive_size_witness :
  Helpers.batches [1; 2; 3]%Z (-2) = Ok []
  /\ Helpers.batches [1; 2; 3]%Z 0 = Raise ValueError.
Proof.
  split.
  - apply (batches_nonpositive_size Z [1; 2; 3]%Z (-2)%Z). lia.
  - apply (batches_nonpositive_size Z [1; 2; 3]%Z 0%Z). lia.
Defined.

(** X2.  With a size [n >= 1] no batch is empty and none is longer
    than [n]; in particular the empty sequence yields no batch. *)
Theorem batches_no_empty_chunk (A : Type) (l : list A) (n : Z) :
  (1 <= n)%Z ->
  exists chunks : list (list A),
    Helpers.batches l n = Ok chunks
    /\ Forall (fun chunk => (1 <= Z.of_nat (List.length chunk) <= n)%Z) chunks
    /\ (l = [] -> chunks = []).
Proof.
  intros Hn.
  set (L := Z.of_nat (List.length l)).
  destruct (ceil_div_bounds L n Hn ltac:(unfold L; lia)) as [[Hlo Hhi] Hc].
  exists (map (nth_batch l n) (seq 0 (Z.to_nat (ceil_div L n)))).
  split; [apply batches_closed; exact Hn|]. split.
  - apply Forall_forall. intros chunk Hin.
    apply in_map_iff in Hin as [k [<- Hk]].
    apply in_seq in Hk. rewrite nth_batch_length by exact Hn. fold L.
    assert (0 <= Z.of_nat k * n)%Z by nia.
    assert (Z.of_nat k * n <= (ceil_div L n - 1) * n)%Z by nia.
    lia.
  - intros Hl. subst l. fold L.
    assert (HL : L = 0%Z) by reflexivity.
    replace (Z.to_nat (ceil_div L n)) with O by nia. reflexivity.
Qed.

Lemma batches_no_empty_chunk_witness :
  exists chunks : list (list Z),
    Helpers.batches [1; 2; 3; 4; 5]%Z 2 = Ok chunks
    /\ Forall (fun chunk => (1 <= Z.of_nat (List.length chunk) <= 2)%Z) chunks.
Proof.
  destruct (batches_no_empty_chunk Z [1; 2; 3; 4; 5]%Z 2 ltac:(lia))
    as [chunks [H1 [H2 _]]].
  exists chunks. split; assumption.
Defined.

(** X3.  With a size [n >= 1] there are [ceil(L / n)] batches; the
    element at position [j < n] of the batch number [k] is the element
    at position [k * n + j] of the sequence (and is missing exactly
    when the sequence is); and every element of the sequence, at
    position [i], is found in the batch number [i / n] at position
    [i mod n]: batches neither overlap nor skip or reorder elements. *)
Theorem batches_positions (A : Type) (l : list A) (n : Z) :
  (1 <= n)%Z ->
  exists chunks : list (list A),
    Helpers.batches l n = Ok chunks
    /\ Z.of_nat (List.length chunks) = ceil_div (Z.of_nat (List.length l)) n
    /\ (forall k j,
           (k < List.length chunks)%nat ->
           (j < Z.to_nat n)%nat ->
           nth_error (nth k chunks []) j = nth_error l (k * Z.to_nat n + j))
    /\ (forall i,
           (i < List.length l)%nat ->
           (i / Z.to_nat n < List.length chunks)%nat
           /\ nth_error (nth (i / Z.to_nat n) chunks []) (i mod Z.to_nat n)
              = nth_error l i
           /\ nth_error l i <> None).
Proof.
  intros Hn.
  set (L := Z.of_nat (List.length l)).
  destruct (ceil_div_bounds L n Hn ltac:(unfold L; lia)) as [[Hlo Hhi] Hc].
  set (c := Z.to_nat (ceil_div L n)).
  exists (map (nth_batch l n) (seq 0 c)).
  assert (Hlen : List.length (map (nth_batch l n) (seq 0 c)) = c)
    by now rewrite length_map, length_seq.
  assert (Hpos : forall k j,
             (k < c)%nat -> (j < Z.to_nat n)%nat ->
             nth_error (nth k (map (nth_batch l n) (seq 0 c)) []) j
             = nth_error l (k * Z.to_nat n + j)).
  { intros k j Hk Hj.
    rewrite nth_indep with (d' := nth_batch l n 0)
      by (rewrite length_map, length_seq; exact Hk).
    rewrite map_nth, seq_nth by exact Hk. cbn [Nat.add].
    rewrite nth_batch_eq by exact Hn. fold L.
    assert (H0 : (0 <= Z.of_nat k * n)%Z) by nia.
    assert (H1 : (Z.of_nat k * n <= (ceil_div L n - 1) * n)%Z)
      by (unfold c in Hk; nia).
    assert (Hmin : Z.min (Z.of_nat k * n) L = (Z.of_nat k * n)%Z) by lia.
    rewrite Hmin, nth_error_firstn, nth_error_skipn.
    assert (Hidx : (Z.to_nat (Z.of_nat k * n) + j = k * Z.to_nat n + j)%nat)
      by nia.
    rewrite Hidx.
    destruct (j <? Z.to_nat (Z.min (Z.of_nat k * n + n) L)
                   - Z.to_nat (Z.of_nat k * n))%nat eqn:E; [reflexivity|].
    apply Nat.ltb_ge in E. symmetry. apply nth_error_None.
    unfold L in *. lia. }
  split; [apply batches_closed; exact Hn|].
  split; [rewrite Hlen; unfold c; fold L; lia|].
  split; [intros k j Hk Hj; rewrite Hlen in Hk; now apply Hpos|].
  intros i Hi. rewrite Hlen.
  set (m := Z.to_nat n).
  assert (Hm : (1 <= m)%nat) by (unfold m; lia).
  assert (Hmn : Z.of_nat m = n) by (unfold m; lia).
  pose proof (Nat.div_mod_eq i m) as Hdm.
  pose proof (Nat.mod_upper_bound i m ltac:(lia)) as Hmod.
  assert (Hk : (i / m < c)%nat).
  { assert (Z.of_nat (i / m) * n <= Z.of_nat i)%Z by nia.
    assert (Z.of_nat i < ceil_div L n * n)%Z by (unfold L in *; lia).
    assert (Z.of_nat (i / m) < ceil_div L n)%Z by nia.
    unfold c. lia. }
  split; [exact Hk|]. split.
  - rewrite (Hpos (i / m)%nat (i mod m)%nat Hk Hmod). f_equal. fold m. lia.
  - intros Hnone. apply nth_error_None in Hnone. lia.
Qed.

Lemma batches_positions_witness :
  exists chunks : list (list Z),
    Helpers.batches [10; 20; 30; 40; 50]%Z 2 = Ok chunks
    /\ List.length chunks = 3%nat
    /\ nth_error (nth 2 chunks []) 0 = Some 50%Z.
Proof.
  destruct (batches_positions Z [10; 20; 30; 40; 50]%Z 2 ltac:(lia))
    as [chunks [H1 [H2 [_ H4]]]].
  exists chunks. split; [exact H1|]. split.
  - change (ceil_div (Z.of_nat (List.length [10; 20; 30; 40; 50]%Z)) 2)
      with 3%Z in H2. lia.
  - destruct (H4 4%nat ltac:(simpl; lia)) as [_ [H _]]. exact H.
Defined.

(** X4.  A size [n >= 1] that is at least the length of a non-empty
    sequence yields the whole sequence as the only batch. *)
Theorem batches_whole (A : Type) (l : list A) (n : Z) :
  (1 <= n)%Z ->
  (Z.of_nat (List.length l) <= n)%Z ->
  l <> [] ->
  Helpers.batches l n = Ok [l].
Proof.
  intros Hn HL Hne.
  rewrite batches_closed by exact Hn.
  assert (Hpos : (1 <= Z.of_nat (List.length l))%Z).
  { destruct l; [congruence | simpl; lia]. }
  assert (Hc : ceil_div (Z.of_nat (List.length l)) n = 1%Z).
  { destruct (ceil_div_bounds (Z.of_nat (List.length l)) n Hn ltac:(lia))
      as [[Hlo Hhi] Hc]. nia. }
  rewrite Hc. change (Z.to_nat 1) with 1%nat. cbn [seq map].
  do 2 f_equal. rewrite nth_batch_eq by exact Hn.
  replace (Z.to_nat (Z.min (Z.of_nat 0 * n) _)) with O by lia.
  cbn [skipn]. rewrite Nat.sub_0_r. apply firstn_all2. lia.
Qed.

Lemma batches_whole_witness :
  Helpers.batches [1; 2; 3]%Z 5 = Ok [[1; 2; 3]%Z].
Proof.
  apply (batches_whole Z [1; 2; 3]%Z 5); [lia | simpl; lia | discriminate].
Defined.

(* ================================================================= *)
(** ** Further properties of the flattened text *)

Section FlatTextFacts.

Import Helpers.

(** A loop whose step appends one piece per item. *)
Lemma fold_left_pieces {X : Type} (f : string -> X -> string)
      (g : X -> string) (xs : list X) :
  (forall acc x, f acc x = acc ++ g x) ->
  forall acc,
    fold_left f xs acc = acc ++ String.concat EmptyString (map g xs).
Proof.
  intros Hf. induction xs as [|x xs IH]; intros acc.
  - simpl. now rewrite app_empty_r.
  - cbn [fold_left map]. rewrite IH, Hf, concat_empty_cons.
    now rewrite app_assoc.
Qed.

Lemma flatten_sec_eq (sep ret_str : string) (sec : Element) :
  flatten_sec sep ret_str sec = ret_str ++ flat_sec_entry sep sec.
Proof.
  unfold flatten_sec, flat_sec_entry.
  destruct (find sec [Child "p"]) eqn:Hp.
  - rewrite fold_left_append.
    destruct (find sec [Child "title"]); now rewrite ?app_assoc.
  - apply find_None in Hp. rewrite Hp. cbn [map String.concat].
    destruct (find sec [Child "title"]);
      now rewrite ?app_assoc, ?app_empty_r.
Qed.

Lemma flatten_step_eq (sep ret_str : string) (top_level : Element) :
  flatten_step sep ret_str top_level
  = ret_str ++ flat_body_text sep top_level.
Proof.
  unfold flatten_step, flat_body_text.
  destruct (find top_level [Child "sec"]).
  - apply fold_left_pieces. intros acc x. apply flatten_sec_eq.
  - apply fold_left_append.
Qed.

(** The text collected by [getAbstract] and [getBody]. *)
Lemma flatten_eq (element : Element) (path : path) (sep : string) :
  flatten element path sep
  = String.concat EmptyString (map (flat_body_text sep) (findall element path)).
Proof.
  unfold flatten.
  rewrite (fold_left_pieces _ (flat_body_text sep))
    by (intros acc x; apply flatten_step_eq).
  reflexivity.
Qed.

Lemma app_eq_empty (a b : string) :
  a ++ b = EmptyString <-> a = EmptyString /\ b = EmptyString.
Proof.
  destruct a; simpl; split.
  - auto.
  - now intros [_ ->].
  - discriminate.
  - intros [H _]. discriminate.
Qed.

Lemma map_pieces_empty {X : Type} (g : X -> string) (xs : list X) :
  (forall x, g x <> EmptyString) ->
  String.concat EmptyString (map g xs) = EmptyString <-> xs = [].
Proof.
  intros Hg. split.
  - destruct xs as [|x xs]; [reflexivity|].
    cbn [map]. rewrite concat_empty_cons, app_eq_empty.
    intros [H _]. now apply Hg in H.
  - now intros ->.
Qed.

Lemma piece_nonempty (sep : string) (x : Element) :
  sep <> EmptyString -> joined_text x ++ sep <> EmptyString.
Proof. intros Hs H. apply app_eq_empty in H as [_ H]. contradiction. Qed.

Lemma flat_sec_entry_empty (sep : string) (sec : Element) :
  sep <> EmptyString ->
  flat_sec_entry sep sec = EmptyString
  <-> find sec [Child "title"] = None /\ findall sec [Child "p"] = [].
Proof.
  intros Hs. unfold flat_sec_entry. rewrite app_eq_empty.
  rewrite (map_pieces_empty _ _ (fun x => piece_nonempty sep x Hs)).
  destruct (find sec [Child "title"]) as [t|].
  - split; [|intros [H _]; discriminate].
    intros [H _]. apply app_eq_empty in H as [_ H]. discriminate.
  - tauto.
Qed.

Lemma flat_body_text_empty (sep : string) (top_level : Element) :
  sep <> EmptyString ->
  flat_body_text sep top_level = EmptyString <-> renders_nothing top_level.
Proof.
  intros Hs. unfold flat_body_text, renders_nothing.
  destruct (find top_level [Child "sec"]).
  - rewrite concat_empty_nil_iff. split.
    + intros H sec Hsec. apply (flat_sec_entry_empty sep sec Hs).
      apply H. now apply in_map.
    + intros H x Hx. apply in_map_iff in Hx as [sec [<- Hsec]].
      apply (flat_sec_entry_empty sep sec Hs). now apply H.
  - apply map_pieces_empty. intros x. now apply piece_nonempty.
Qed.

Lemma flatten_empty (element : Element) (path : path) (sep : string) :
  sep <> EmptyString ->
  flatten element path sep = EmptyString
  <-> forall b, In b (findall element path) -> renders_nothing b.
Proof.
  intros Hs. rewrite flatten_eq, concat_empty_nil_iff. split.
  - intros H b Hb. apply (flat_body_text_empty sep b Hs).
    apply H. now apply in_map.
  - intros H x Hx. apply in_map_iff in Hx as [b [<- Hb]].
    apply (flat_body_text_empty sep b Hs). now apply H.
Qed.

Lemma or_default_None (s : string) :
  or_default None s = None <-> s = EmptyString.
Proof.
  unfold or_default. destruct s; simpl; split; congruence.
Qed.

End FlatTextFacts.

(** X5.  [getBody] and [getAbstract] are absent for the same
    documents: exactly when every matched element renders nothing,
    that is, an element with a section child has no section below it
    with a title or a paragraph child, and an element without a
    section child has no child at all. *)
Theorem flattened_text_absent_iff (element : Element) (path : path) :
  (Helpers.getBody element path None = None
   <-> forall b, In b (findall element path) -> renders_nothing b)
  /\ (Helpers.getAbstract element path None = None
      <-> forall b, In b (findall element path) -> renders_nothing b)
  /\ (Helpers.getBody element path None = None
      <-> Helpers.getAbstract element path None = None).
Proof.
  assert (Hnl : nl <> EmptyString) by discriminate.
  assert (Hnl2 : nl ++ nl <> EmptyString) by discriminate.
  assert (Hb : Helpers.getBody element path None = None
               <-> forall b, In b (findall element path) -> renders_nothing b).
  { unfold Helpers.getBody.
    change (or_default None (Helpers.flatten element path (nl ++ nl)) = None
            <-> forall b, In b (findall element path) -> renders_nothing b).
    rewrite or_default_None. now apply flatten_empty. }
  assert (Ha : Helpers.getAbstract element path None = None
               <-> forall b, In b (findall element path) -> renders_nothing b).
  { unfold Helpers.getAbstract.
    change (or_default None (Helpers.flatten element path nl) = None
            <-> forall b, In b (findall element path) -> renders_nothing b).
    rewrite or_default_None. now apply flatten_empty. }
  split; [exact Hb|]. split; [exact Ha|]. now rewrite Hb, Ha.
Qed.

Section DroppedChildrenFacts.

Import Helpers.

Lemma iter_nil_tag (t : string) (e : Element) :
  iter t e = [] -> String.eqb (tag e) t = false.
Proof.
  destruct e as [tg at' tx cs tl]. cbn [iter tag].
  destruct (String.eqb tg t); [discriminate | reflexivity].
Qed.

Lemma flatten_self (e : Element) (sep : string) :
  flatten e [Self] sep = flat_body_text sep e.
Proof.
  unfold flatten, findall. cbn [fold_left select].
  now rewrite flatten_step_eq.
Qed.

(** Removing a child that is no section and holds none leaves the
    text of an element with a section child unchanged. *)
Lemma flat_body_text_drop (sep tg : string) (at' : list (string * string))
      (tx tl : option string) (l1 l2 : list Element) (extra : Element) :
  iter "sec" extra = [] ->
  (exists s, In s (l1 ++ l2)%list /\ tag s = "sec") ->
  flat_body_text sep (mkElement tg at' tx (l1 ++ extra :: l2)%list tl)
  = flat_body_text sep (mkElement tg at' tx (l1 ++ l2)%list tl).
Proof.
  intros Hextra [s [Hin Hs]].
  pose proof (iter_nil_tag _ _ Hextra) as Htag.
  unfold flat_body_text, find, findall.
  cbn [fold_left select flat_map children].
  rewrite !List.app_nil_r, !filter_app, !flat_map_app.
  cbn [filter flat_map]. rewrite Htag, Hextra. cbn [List.app].
  rewrite <- filter_app.
  destruct (filter (fun e => String.eqb (tag e) "sec") (l1 ++ l2)%list)
    as [|x xs] eqn:Ef; [|reflexivity].
  exfalso.
  assert (Hf : In s (filter (fun e => String.eqb (tag e) "sec") (l1 ++ l2)%list))
    by (apply filter_In; split; [exact Hin | now apply String.eqb_eq]).
  rewrite Ef in Hf. destruct Hf.
Qed.

End DroppedChildrenFacts.

Section MatchedSetFacts.

Import Helpers.

(** The text depends on the matched elements through their
    renderings only. *)
Lemma flatten_replace (element element' : Element) (path : path) (sep : string)
      (pre post : list Element) (b b' : Element) :
  findall element path = (pre ++ b :: post)%list ->
  findall element' path = (pre ++ b' :: post)%list ->
  flat_body_text sep b = flat_body_text sep b' ->
  flatten element path sep = flatten element' path sep.
Proof.
  intros H H' Hb. rewrite !flatten_eq, H, H', !map_app.
  cbn [map]. now rewrite Hb.
Qed.

(** The elements [.//body] matches below a root one of whose
    children is a [body] element. *)
Lemma findall_body_child (rt : string) (ra : list (string * string))
      (rx rtl : option string) (c1 c2 : list Element)
      (at' : list (string * string)) (tx tl : option string)
      (cs : list Element) :
  findall (mkElement rt ra rx (c1 ++ mkElement "body" at' tx cs tl :: c2)%list rtl)
          body_path
  = (flat_map (iter "body") c1
     ++ mkElement "body" at' tx cs tl
     :: (flat_map (iter "body") cs ++ flat_map (iter "body") c2))%list.
Proof.
  unfold body_path, findall. cbn [fold_left select flat_map children].
  rewrite List.app_nil_r, flat_map_app. cbn [flat_map iter].
  reflexivity.
Qed.

End MatchedSetFacts.

(** X6.  When a matched element has a section child, [getBody] and
    [getAbstract] render its sections only: taking away from it a
    child that is not a section and holds none leaves the text as it
    is, as long as the selector matches the same elements otherwise.
    For [PMCArticle._extractBody], whose selector is [.//body], this
    holds for a body that is a child of the root and a removed child
    (a paragraph placed before the first section, say) that holds no
    body element either. *)
Theorem body_children_outside_sections_dropped :
  (forall (element element' : Element) (path : path)
          (default : option string) (pre post : list Element)
          (tg : string) (at' : list (string * string))
          (tx tl : option string) (l1 l2 : list Element) (extra : Element),
      iter "sec" extra = [] ->
      (exists s, In s (l1 ++ l2)%list /\ tag s = "sec") ->
      findall element path
      = (pre ++ mkElement tg at' tx (l1 ++ extra :: l2)%list tl :: post)%list ->
      findall element' path
      = (pre ++ mkElement tg at' tx (l1 ++ l2)%list tl :: post)%list ->
      Helpers.getBody element path default
      = Helpers.getBody element' path default
      /\ Helpers.getAbstract element path default
         = Helpers.getAbstract element' path default)
  /\ (forall (rt : string) (ra : list (string * string))
             (rx rtl : option string) (c1 c2 : list Element)
             (at' : list (string * string)) (tx tl : option string)
             (l1 l2 : list Element) (extra : Element),
         iter "sec" extra = [] ->
         iter "body" extra = [] ->
         (exists s, In s (l1 ++ l2)%list /\ tag s = "sec") ->
         PMCArticle._extractBody
           (mkElement rt ra rx
              (c1 ++ mkElement "body" at' tx (l1 ++ extra :: l2)%list tl
                  :: c2)%list rtl)
         = PMCArticle._extractBody
             (mkElement rt ra rx
                (c1 ++ mkElement "body" at' tx (l1 ++ l2)%list tl
                    :: c2)%list rtl)).
Proof.
  assert (Hgen : forall (element element' : Element) (path : path)
                        (default : option string) (pre post : list Element)
                        (tg : string) (at' : list (string * string))
                        (tx tl : option string) (l1 l2 : list Element)
                        (extra : Element),
             iter "sec" extra = [] ->
             (exists s, In s (l1 ++ l2)%list /\ tag s = "sec") ->
             findall element path
             = (pre ++ mkElement tg at' tx (l1 ++ extra :: l2)%list tl
                    :: post)%list ->
             findall element' path
             = (pre ++ mkElement tg at' tx (l1 ++ l2)%list tl :: post)%list ->
             Helpers.getBody element path default
             = Helpers.getBody element' path default
             /\ Helpers.getAbstract element path default
                = Helpers.getAbstract element' path default).
  { intros element element' path default pre post tg at' tx tl l1 l2 extra
           Hextra Hsec H H'.
    unfold Helpers.getBody, Helpers.getAbstract.
    rewrite (flatten_replace element element' path (nl ++ nl) _ _ _ _ H H')
      by (apply flat_body_text_drop; assumption).
    rewrite (flatten_replace element element' path nl _ _ _ _ H H')
      by (apply flat_body_text_drop; assumption).
    split; reflexivity. }
  split; [exact Hgen|].
  intros rt ra rx rtl c1 c2 at' tx tl l1 l2 extra Hsec Hbody Hex.
  unfold PMCArticle._extractBody. fold body_path.
  refine (proj1 (Hgen _ _ body_path None
                      (flat_map (iter "body") c1)
                      ((flat_map (iter "body") l1 ++ flat_map (iter "body") l2)
                       ++ flat_map (iter "body") c2)%list
                      "body" at' tx tl l1 l2 extra Hsec Hex _ _)).
  - rewrite findall_body_child, flat_map_app. cbn [flat_map].
    rewrite Hbody. cbn [List.app]. now rewrite <- List.app_assoc.
  - rewrite findall_body_child, flat_map_app.
    now rewrite <- List.app_assoc.
Qed.

Lemma body_children_outside_sections_dropped_witness :
  PMCArticle._extractBody Samples.doc_lead_paragraph
  = PMCArticle._extractBody Samples.doc_no_lead_paragraph.
Proof.
  destruct body_children_outside_sections_dropped as [_ H].
  apply (H "article" [] None None [] [] [] None None
           [] [Samples.sec_plain] (Samples.leaf "p" "Lead.")).
  - reflexivity.
  - reflexivity.
  - exists Samples.sec_plain. split; [simpl; auto | reflexivity].
Defined.

(* ================================================================= *)
(** ** The name given to [getSection] *)

Section LowerFacts.

Lemma lower_char_idem (c : ascii) : lower_char (lower_char c) = lower_char c.
Proof. destruct c as [[] [] [] [] [] [] [] []]; reflexivity. Qed.

Lemma lower_app (a b : string) : lower (a ++ b) = lower a ++ lower b.
Proof. induction a as [|x a IH]; simpl; [reflexivity | now rewrite IH]. Qed.

Lemma lower_idem (s : string) : lower (lower s) = lower s.
Proof.
  induction s as [|x s IH]; simpl; [reflexivity|].
  now rewrite lower_char_idem, IH.
Qed.

Lemma lower_length (s : string) : String.length (lower s) = String.length s.
Proof. induction s as [|x s IH]; simpl; [reflexivity | now rewrite IH]. Qed.

Lemma prefix_split (n h : string) :
  prefix n h = true -> exists rest, h = n ++ rest.
Proof.
  revert h. induction n as [|c n IH]; intros h H.
  - exists h. reflexivity.
  - destruct h as [|d h]; [discriminate|]. simpl in H.
    destruct (ascii_dec c d) as [->|]; [|discriminate].
    destruct (IH h H) as [rest ->]. exists rest. reflexivity.
Qed.

Lemma contains_split (n h : string) :
  contains n h = true -> exists a b, h = a ++ n ++ b.
Proof.
  induction h as [|c h IH]; cbn [contains]; intros H.
  - apply orb_true_iff in H as [H|H]; [|discriminate].
    apply prefix_split in H as [rest ->]. exists EmptyString, rest.
    reflexivity.
  - apply orb_true_iff in H as [H|H].
    + apply prefix_split in H as [rest ->]. exists EmptyString, rest.
      reflexivity.
    + destruct (IH H) as [a [b ->]]. exists (String c a), b. reflexivity.
Qed.

Lemma app_inj_length (a a' b b' : string) :
  String.length a = String.length a' ->
  a ++ b = a' ++ b' -> a = a' /\ b = b'.
Proof.
  revert a'. induction a as [|x a IH]; intros [|x' a'] Hl H;
    try discriminate.
  - simpl in H. auto.
  - simpl in Hl, H. injection H as -> H. injection Hl as Hl.
    destruct (IH a' Hl H) as [-> ->]. auto.
Qed.

(** A substring of a lower-cased text is its own lower-casing. *)
Lemma contains_lower (n t : string) :
  contains n (lower t) = true -> lower n = n.
Proof.
  intros H. apply contains_split in H as [a [b H]].
  pose proof (lower_idem t) as Hi. rewrite H in Hi.
  rewrite !lower_app in Hi.
  apply app_inj_length in Hi as [_ Hi]; [|apply lower_length].
  apply app_inj_length in Hi as [Hi _]; [exact Hi | apply lower_length].
Qed.

End LowerFacts.

(** X7.  The name handed to [getSection] is compared as it is with
    the lower-cased title text: a name that is not its own
    lower-casing (one with a capital letter) matches no section, and
    the result is the default for every document. *)
Theorem getSection_name_must_be_lower_case
        (element : Element) (path : path) (section : string)
        (default : option string) :
  lower section <> section ->
  Helpers.getSection element path section default = default.
Proof.
  intros Hl. rewrite getSection_bucket. unfold bucket.
  rewrite filter_none; [reflexivity|].
  intros sec _. unfold title_matches.
  destruct (findtext sec [Child "title"]) as [t|]; [|reflexivity].
  destruct (contains section (lower t)) eqn:E; [|reflexivity].
  apply contains_lower in E. contradiction.
Qed.

Lemma getSection_name_must_be_lower_case_witness :
  Helpers.getSection Samples.doc_two_names body_sec_path "Methods" None = None.
Proof.
  apply (getSection_name_must_be_lower_case
           Samples.doc_two_names body_sec_path "Methods" None).
  discriminate.
Defined.

(* ================================================================= *)
(** ** Further properties of the date resolvers *)

Section DateValueFacts.

(** The body of the resolvers succeeds exactly with three numbers
    that form a calendar date. *)
Lemma date_of_node_Ok (node : Element) (year month day : string)
      (dt : PyDate.date) :
  date_of_node (Some node) year month day = Ok dt
  <-> date_fields node year month day
                  (PyDate.year dt) (PyDate.month dt) (PyDate.day dt)
      /\ PyDate.valid (PyDate.year dt) (PyDate.month dt) (PyDate.day dt) = true.
Proof.
  unfold date_of_node, date_fields, getContent_of. cbn [bind].
  destruct (PyInt.int (Helpers.getContent node [Self; Descendant year] None nl))
    as [y|e1]; cbn [bind].
  2: { split; [discriminate | intros [[H _] _]; discriminate]. }
  destruct (PyInt.int (Helpers.getContent node [Self; Descendant month]
                                          (Some "1") nl))
    as [m|e2]; cbn [bind].
  2: { split; [discriminate | intros [[_ [H _]] _]; discriminate]. }
  destruct (PyInt.int (Helpers.getContent node [Self; Descendant day]
                                          (Some "1") nl))
    as [d|e3]; cbn [bind].
  2: { split; [discriminate | intros [[_ [_ H]] _]; discriminate]. }
  unfold PyDate.new. destruct dt as [y' m' d']. cbn [PyDate.year PyDate.month PyDate.day].
  split.
  - destruct (PyDate.valid y m d) eqn:Hv; [|discriminate].
    intros [= <- <- <-]. auto.
  - intros [[[= ->] [[= ->] [= ->]]] Hv]. now rewrite Hv.
Qed.

Lemma resolver_Some (sel : option Element) (year month day : string)
      (dt : PyDate.date) :
  try_except (d <- date_of_node sel year month day ;; Ok (Some d))
             (fun _ => Ok None) = Ok (Some dt)
  <-> exists node,
      sel = Some node
      /\ date_fields node year month day
                     (PyDate.year dt) (PyDate.month dt) (PyDate.day dt)
      /\ PyDate.valid (PyDate.year dt) (PyDate.month dt) (PyDate.day dt)
         = true.
Proof.
  destruct sel as [node|].
  - split.
    + destruct (date_of_node (Some node) year month day) as [d|e] eqn:E;
        cbn; [|discriminate].
      intros [= ->]. exists node. split; [reflexivity|].
      now apply date_of_node_Ok.
    + intros [node' [Hn H]]. injection Hn as <-.
      apply date_of_node_Ok in H. rewrite H. reflexivity.
  - split; [discriminate | intros [node [H _]]; discriminate].
Qed.

Lemma resolver_None_or_Some (sel : option Element) (year month day : string) :
  (forall dt,
      try_except (d <- date_of_node sel year month day ;; Ok (Some d))
                 (fun _ => Ok None) <> Ok (Some dt)) ->
  try_except (d <- date_of_node sel year month day ;; Ok (Some d))
             (fun _ => Ok None) = Ok None.
Proof.
  destruct (date_of_node sel year month day) as [d|e]; cbn.
  - intros H. now specialize (H d).
  - reflexivity.
Qed.

(** No node matched: the default comes back; the default ["1"]
    converts to one. *)
Lemma int_default_one (node : Element) (p : path) :
  findall node p = [] ->
  PyInt.int (Helpers.getContent node p (Some "1") nl) = Ok 1%Z.
Proof. intros H. unfold Helpers.getContent. rewrite H. reflexivity. Qed.

(** Matched nodes that are all without text give the empty string,
    which does not convert. *)
Lemma int_textless (node : Element) (p : path) (default : option string) :
  textless_match node p ->
  PyInt.int (Helpers.getContent node p default nl) = Raise ValueError.
Proof.
  intros [Hne Hall]. unfold Helpers.getContent.
  destruct (findall node p) as [|x xs] eqn:E; [congruence|].
  cbn [List.length Nat.eqb]. rewrite <- E in Hall.
  rewrite <- E, (texts_not_None_textless _ Hall). reflexivity.
Qed.

Lemma valid_first_of_january (y : Z) :
  (1 <= y <= 9999)%Z -> PyDate.valid y 1 1 = true.
Proof.
  intros [H1 H2]. unfold PyDate.valid.
  apply Z.leb_le in H1, H2. rewrite H1, H2. reflexivity.
Qed.

End DateValueFacts.

(** X8.  In both schemas the date step returns a date exactly when a
    date node is selected, its year, month and day (month and day
    defaulting to "1") all convert to integers, and the three numbers
    form a calendar date; the date returned is made of exactly these
    numbers.  In every other case the step returns the absent date. *)
Theorem date_resolved_iff (xml_element : Element) :
  (forall dt,
      PubMedArticle._extractPublicationDate xml_element = Ok (Some dt)
      <-> exists node,
          PubMedArticle.selected_date_node xml_element = Some node
          /\ date_fields node "Year" "Month" "Day"
                         (PyDate.year dt) (PyDate.month dt) (PyDate.day dt)
          /\ PyDate.valid (PyDate.year dt) (PyDate.month dt) (PyDate.day dt)
             = true)
  /\ (forall dt,
         PMCArticle._extractPublicationDate xml_element = Ok (Some dt)
         <-> exists node,
             PMCArticle.selected_date_node xml_element = Some node
             /\ date_fields node "year" "month" "day"
                            (PyDate.year dt) (PyDate.month dt) (PyDate.day dt)
             /\ PyDate.valid (PyDate.year dt) (PyDate.month dt) (PyDate.day dt)
                = true)
  /\ ((forall dt,
          PubMedArticle._extractPublicationDate xml_element <> Ok (Some dt)) ->
      PubMedArticle._extractPublicationDate xml_element = Ok None)
  /\ ((forall dt,
          PMCArticle._extractPublicationDate xml_element <> Ok (Some dt)) ->
      PMCArticle._extractPublicationDate xml_element = Ok None).
Proof.
  split; [intros dt; apply resolver_Some|].
  split; [intros dt; apply resolver_Some|].
  split; apply resolver_None_or_Some.
Qed.

Lemma date_resolved_iff_witness :
  PubMedArticle._extractPublicationDate Samples.doc_pubmed_no_year = Ok None.
Proof.
  destruct (date_resolved_iff Samples.doc_pubmed_no_year) as [_ [_ [H _]]].
  apply H. intros dt Hdt. vm_compute in Hdt. discriminate.
Defined.

(** X9.  The full-text resolver selects a node exactly when the
    document has a pub-date node, and the node it selects is one of
    the pub-date nodes of the document; without any pub-date node the
    date is absent. *)
Theorem pmc_date_node_among_pub_dates (xml_element : Element) :
  (forall node,
      PMCArticle.selected_date_node xml_element = Some node ->
      In node (findall xml_element [Self; Descendant "pub-date"]))
  /\ (PMCArticle.selected_date_node xml_element = None
      <-> findall xml_element [Self; Descendant "pub-date"] = [])
  /\ (findall xml_element [Self; Descendant "pub-date"] = [] ->
      PMCArticle._extractPublicationDate xml_element = Ok None).
Proof.
  pose proof (selected_date_node_cases xml_element) as Hsel.
  cbv zeta in Hsel.
  set (dates := findall xml_element [Self; Descendant "pub-date"]) in *.
  assert (Hnone : PMCArticle.selected_date_node xml_element = None
                  <-> dates = []).
  { rewrite Hsel. split.
    - destruct (last (map Some (filter PMCArticle.is_epub dates)) None);
        [discriminate|].
      destruct (hd_error (filter is_electronic_pub dates)); [discriminate|].
      destruct dates; [reflexivity | discriminate].
    - intros ->. reflexivity. }
  split; [|split; [exact Hnone|]].
  - intros node H. rewrite Hsel in H.
    destruct (last (map Some (filter PMCArticle.is_epub dates)) None)
      as [d|] eqn:El.
    + injection H as <-. apply last_map_Some_in in El.
      now apply filter_In in El as [Hin _].
    + destruct (hd_error (filter is_electronic_pub dates)) as [d|] eqn:Eh.
      * injection H as <-. now apply hd_error_filter_Some in Eh as [Hin _].
      * destruct dates as [|d ds]; [discriminate|].
        injection H as <-. now left.
  - intros H. apply Hnone in H.
    unfold PMCArticle._extractPublicationDate. cbv zeta. rewrite H.
    reflexivity.
Qed.

Lemma pmc_date_node_among_pub_dates_witness :
  PMCArticle._extractPublicationDate Samples.doc_two_names = Ok None.
Proof.
  destruct (pmc_date_node_among_pub_dates Samples.doc_two_names)
    as [_ [_ H]].
  apply H. reflexivity.
Defined.

(** X10.  When the selected date node has neither a month nor a day
    below it and its year converts to a number between 1 and 9999,
    the date is the first of January of that year, in both schemas. *)
Theorem year_only_date_is_first_of_january
        (xml_element node : Element) (y : Z) :
  (1 <= y <= 9999)%Z ->
  (PubMedArticle.selected_date_node xml_element = Some node ->
   PyInt.int (Helpers.getContent node [Self; Descendant "Year"] None nl)
   = Ok y ->
   findall node [Self; Descendant "Month"] = [] ->
   findall node [Self; Descendant "Day"] = [] ->
   PubMedArticle._extractPublicationDate xml_element
   = Ok (Some (PyDate.mkDate y 1 1)))
  /\ (PMCArticle.selected_date_node xml_element = Some node ->
      PyInt.int (Helpers.getContent node [Self; Descendant "year"] None nl)
      = Ok y ->
      findall node [Self; Descendant "month"] = [] ->
      findall node [Self; Descendant "day"] = [] ->
      PMCArticle._extractPublicationDate xml_element
      = Ok (Some (PyDate.mkDate y 1 1))).
Proof.
  intros Hy. split; intros Hsel Hyear Hm Hd.
  - apply resolver_Some. exists node. split; [exact Hsel|].
    cbn [PyDate.year PyDate.month PyDate.day]. split.
    + unfold date_fields. rewrite Hyear, !int_default_one by assumption. auto.
    + now apply valid_first_of_january.
  - apply resolver_Some. exists node. split; [exact Hsel|].
    cbn [PyDate.year PyDate.month PyDate.day]. split.
    + unfold date_fields. rewrite Hyear, !int_default_one by assumption. auto.
    + now apply valid_first_of_january.
Qed.

Lemma year_only_date_is_first_of_january_witness :
  PMCArticle._extractPublicationDate Samples.doc_pmc_year_only
  = Ok (Some (PyDate.mkDate 1999 1 1)).
Proof.
  destruct (year_only_date_is_first_of_january
              Samples.doc_pmc_year_only
              (Samples.node "pub-date" [Samples.leaf "year" "1999"])
              1999%Z ltac:(lia)) as [_ H].
  apply H; reflexivity.
Defined.

(** X11.  A month or day element that is present but has no text
    does not fall back to the default "1": the empty string it yields
    does not convert, and the date is absent even with a valid year,
    in both schemas. *)
Theorem textless_month_or_day_voids_date (xml_element node : Element) :
  (PubMedArticle.selected_date_node xml_element = Some node ->
   textless_match node [Self; Descendant "Month"]
   \/ textless_match node [Self; Descendant "Day"] ->
   PubMedArticle._extractPublicationDate xml_element = Ok None)
  /\ (PMCArticle.selected_date_node xml_element = Some node ->
      textless_match node [Self; Descendant "month"]
      \/ textless_match node [Self; Descendant "day"] ->
      PMCArticle._extractPublicationDate xml_element = Ok None).
Proof.
  split; intros Hsel Hless.
  - unfold PubMedArticle._extractPublicationDate. cbv zeta. rewrite Hsel.
    apply try_except_raises, date_of_node_raises.
    destruct Hless as [H|H]; apply (int_textless _ _ (Some "1")) in H.
    + right; left. now exists ValueError.
    + right; right; left. now exists ValueError.
  - unfold PMCArticle._extractPublicationDate. cbv zeta. rewrite Hsel.
    apply try_except_raises, date_of_node_raises.
    destruct Hless as [H|H]; apply (int_textless _ _ (Some "1")) in H.
    + right; left. now exists ValueError.
    + right; right; left. now exists ValueError.
Qed.

Lemma textless_month_or_day_voids_date_witness :
  PMCArticle._extractPublicationDate Samples.doc_pmc_empty_day = Ok None.
Proof.
  destruct (textless_month_or_day_voids_date
              Samples.doc_pmc_empty_day
              (Samples.node "pub-date"
                 [Samples.node "day" []; Samples.leaf "year" "1999"]))
    as [_ H].
  apply H; [reflexivity|]. right. split; [discriminate|].
  intros sub [<-|[]]. reflexivity.
Defined.

(* ================================================================= *)
(** ** Instances and their dictionary form *)

Section InstanceFacts.

Lemma dict_of_slots_keys (self : instance) (slots : list string) :
  forall d, dict_of_slots self slots = Ok d -> map fst d = slots.
Proof.
  induction slots as [|key rest IH]; intros d H.
  - injection H as <-. reflexivity.
  - cbn [dict_of_slots] in H.
    destruct (getattribute self key) as [v|e]; cbn [bind] in H;
      [|discriminate].
    destruct (dict_of_slots self rest) as [d'|e]; cbn [bind] in H;
      [|discriminate].
    injection H as <-. cbn [map fst]. now rewrite (IH d' eq_refl).
Qed.

(** Reading every key of a dictionary with distinct keys gives the
    dictionary back. *)
Lemma dict_get_all (d : list (string * pyvalue)) (default : pyvalue) :
  NoDup (map fst d) ->
  map (fun key => (key, dict_get d key default)) (map fst d) = d.
Proof.
  induction d as [|[k v] d IH]; intros Hnd; [reflexivity|].
  cbn [map fst] in *. apply NoDup_cons_iff in Hnd as [Hk Hnd].
  cbn [dict_get]. rewrite String.eqb_refl. f_equal.
  rewrite <- (IH Hnd) at 2. apply map_ext_in. intros key Hkey.
  destruct (String.eqb k key) eqn:E; [|reflexivity].
  apply String.eqb_eq in E. subst key. contradiction.
Qed.

Lemma pubmed_slots_distinct : NoDup PubMedArticle.__slots__.
Proof.
  unfold PubMedArticle.__slots__.
  repeat (apply NoDup_cons; [simpl; intuition discriminate|]).
  apply NoDup_nil.
Qed.

Lemma pmc_slots_distinct : NoDup PMCArticle.__slots__.
Proof.
  unfold PMCArticle.__slots__.
  repeat (apply NoDup_cons; [simpl; intuition discriminate|]).
  apply NoDup_nil.
Qed.

Lemma pubmed_kwargs_toDict (kwargs : list (string * pyvalue)) :
  PubMedArticle.toDict (init_from_kwargs PubMedArticle.__slots__ kwargs)
  = Ok (map (fun field => (field, dict_get kwargs field PNone))
            PubMedArticle.__slots__).
Proof. reflexivity. Qed.

Lemma pmc_kwargs_toDict (kwargs : list (string * pyvalue)) :
  PMCArticle.toDict (init_from_kwargs PMCArticle.__slots__ kwargs)
  = Ok (map (fun field => (field, dict_get kwargs field PNone))
            PMCArticle.__slots__).
Proof. reflexivity. Qed.

Lemma pubmed_initializeFromXML_total (xml_element : Element) :
  exists r, PubMedArticle._initializeFromXML xml_element = Ok r.
Proof.
  unfold PubMedArticle._initializeFromXML.
  destruct (try_except_total
              (date_of_node (PubMedArticle.selected_date_node xml_element)
                            "Year" "Month" "Day")) as [v Hv].
  fold (PubMedArticle._extractPublicationDate xml_element) in Hv.
  rewrite Hv. cbn [bind]. eauto.
Qed.

Lemma pmc_initializeFromXML_total (xml_element : Element) :
  exists r, PMCArticle._initializeFromXML xml_element = Ok r.
Proof.
  unfold PMCArticle._initializeFromXML.
  unfold PMCArticle._extractBodySections at 1.
  unfold Helpers.getBodySections at 1. cbv zeta.
  destruct (try_except_total
              (date_of_node (PMCArticle.selected_date_node xml_element)
                            "year" "month" "day")) as [v Hv].
  fold (PMCArticle._extractPublicationDate xml_element) in Hv.
  rewrite Hv. cbn [bind]. eauto.
Qed.

End InstanceFacts.

(** X12.  An article built without an XML element has every slot set:
    its dictionary form lists the slots in their declared order, each
    with the keyword argument of that name, or [None] when there is
    none; keyword arguments that name no slot are ignored. *)
Theorem kwargs_instance_toDict (kwargs : list (string * pyvalue)) :
  (exists self,
      PubMedArticle.__init__ None kwargs = Ok self
      /\ PubMedArticle.toDict self
         = Ok (map (fun field => (field, dict_get kwargs field PNone))
                   PubMedArticle.__slots__))
  /\ (exists self,
         PMCArticle.__init__ None kwargs = Ok self
         /\ PMCArticle.toDict self
            = Ok (map (fun field => (field, dict_get kwargs field PNone))
                      PMCArticle.__slots__))
  /\ (forall name value,
         ~ In name PubMedArticle.__slots__ ->
         PubMedArticle.__init__ None ((name, value) :: kwargs)
         = PubMedArticle.__init__ None kwargs)
  /\ (forall name value,
         ~ In name PMCArticle.__slots__ ->
         PMCArticle.__init__ None ((name, value) :: kwargs)
         = PMCArticle.__init__ None kwargs).
Proof.
  assert (Hignore : forall slots name value,
             ~ In name slots ->
             init_from_kwargs slots ((name, value) :: kwargs)
             = init_from_kwargs slots kwargs).
  { intros slots name value Hn. unfold init_from_kwargs.
    generalize (@nil (string * pyvalue)).
    induction slots as [|field slots IH]; intros self; [reflexivity|].
    cbn [fold_left dict_get].
    destruct (String.eqb name field) eqn:E.
    - apply String.eqb_eq in E. subst field. exfalso. apply Hn. now left.
    - apply IH. intros H. apply Hn. now right. }
  split; [eexists; split; [reflexivity | apply pubmed_kwargs_toDict]|].
  split; [eexists; split; [reflexivity | apply pmc_kwargs_toDict]|].
  split; intros name value Hn; cbn [PubMedArticle.__init__ PMCArticle.__init__];
    now rewrite Hignore.
Qed.

Lemma kwargs_instance_toDict_witness :
  PubMedArticle.__init__ None [("pages", PStr "12"); ("title", PStr "T")]
  = PubMedArticle.__init__ None [("title", PStr "T")].
Proof.
  destruct (kwargs_instance_toDict [("title", PStr "T")]) as [_ [_ [H _]]].
  apply H. simpl. intuition discriminate.
Defined.

(** X13.  An article built from an XML element ignores the keyword
    arguments and never raises; its dictionary form has exactly the
    declared slots as keys, in their declared order, bound to the
    values that [_initializeFromXML] assigned. *)
Theorem xml_instance_toDict (xml_element : Element)
        (kwargs : list (string * pyvalue)) :
  (exists r d,
      PubMedArticle._initializeFromXML xml_element = Ok r
      /\ PubMedArticle.__init__ (Some xml_element) kwargs
         = Ok (PubMedArticle.slots_of r)
      /\ PubMedArticle.toDict (PubMedArticle.slots_of r) = Ok d
      /\ map fst d = PubMedArticle.__slots__
      /\ forall key value,
          In (key, value) d <-> In (key, value) (PubMedArticle.slots_of r))
  /\ (exists r d,
         PMCArticle._initializeFromXML xml_element = Ok r
         /\ PMCArticle.__init__ (Some xml_element) kwargs
            = Ok (PMCArticle.slots_of r)
         /\ PMCArticle.toDict (PMCArticle.slots_of r) = Ok d
         /\ map fst d = PMCArticle.__slots__
         /\ forall key value,
             In (key, value) d <-> In (key, value) (PMCArticle.slots_of r)).
Proof.
  split.
  - destruct (pubmed_initializeFromXML_total xml_element) as [r Hr].
    exists r. eexists. split; [exact Hr|].
    split; [cbn [PubMedArticle.__init__]; now rewrite Hr|].
    split; [reflexivity|]. split; [reflexivity|].
    intros key value. simpl. tauto.
  - destruct (pmc_initializeFromXML_total xml_element) as [r Hr].
    exists r. eexists. split; [exact Hr|].
    split; [cbn [PMCArticle.__init__]; now rewrite Hr|].
    split; [reflexivity|]. split; [reflexivity|].
    intros key value. simpl. tauto.
Qed.

(** X14.  Feeding the dictionary form of an article back as keyword
    arguments builds an article with the same dictionary form, for an
    article of either class. *)
Theorem toDict_round_trip (self : instance) (d : list (string * pyvalue)) :
  (PubMedArticle.toDict self = Ok d ->
   exists self',
     PubMedArticle.__init__ None d = Ok self'
     /\ PubMedArticle.toDict self' = Ok d)
  /\ (PMCArticle.toDict self = Ok d ->
      exists self',
        PMCArticle.__init__ None d = Ok self'
        /\ PMCArticle.toDict self' = Ok d).
Proof.
  split; intros H.
  - apply dict_of_slots_keys in H.
    eexists. split; [reflexivity|].
    rewrite pubmed_kwargs_toDict. f_equal.
    rewrite <- H at 1. apply dict_get_all.
    rewrite H. apply pubmed_slots_distinct.
  - apply dict_of_slots_keys in H.
    eexists. split; [reflexivity|].
    rewrite pmc_kwargs_toDict. f_equal.
    rewrite <- H at 1. apply dict_get_all.
    rewrite H. apply pmc_slots_distinct.
Qed.

Lemma toDict_round_trip_witness :
  exists d self',
    PubMedArticle.toDict
      (init_from_kwargs PubMedArticle.__slots__ [("title", PStr "T")]) = Ok d
    /\ PubMedArticle.__init__ None d = Ok self'
    /\ PubMedArticle.toDict self' = Ok d.
Proof.
  destruct (toDict_round_trip
              (init_from_kwargs PubMedArticle.__slots__ [("title", PStr "T")])
              (map (fun field =>
                      (field, dict_get [("title", PStr "T")] field PNone))
                   PubMedArticle.__slots__)) as [H _].
  destruct (H eq_refl) as [self' [H1 H2]].
  eexists. exists self'. split; [reflexivity|]. split; assumption.
Defined.

(* ================================================================= *)
(** ** The nodes a selector reaches *)

Section SelectorFacts.

(** Every node that [iter] yields carries the tag asked for. *)
Fixpoint iter_tag (t : string) (e : Element) {struct e} :
  forall x, In x (iter t e) -> tag x = t.
Proof.
  destruct e as [tg at' tx cs tl]. intros x Hx. cbn [iter] in Hx.
  apply in_app_or in Hx as [Hx|Hx].
  - destruct (String.eqb tg t) eqn:E; [|destruct Hx].
    destruct Hx as [<-|[]]. cbn [tag]. now apply String.eqb_eq.
  - induction cs as [|c cs IH]; [destruct Hx|].
    cbn [flat_map] in Hx. apply in_app_or in Hx as [Hx|Hx].
    + exact (iter_tag t c x Hx).
    + exact (IH Hx).
Qed.

Lemma descendant_attr_match (e : Element) (t key value : string) (x : Element) :
  In x (findall e [Self; Descendant t; AttrEq key value]) ->
  tag x = t /\ get x key = Some value
  /\ In x (findall e [Self; Descendant t]).
Proof.
  unfold findall. cbn [fold_left select flat_map].
  rewrite !List.app_nil_r. intros H.
  apply filter_In in H as [Hin Hattr].
  apply opt_eqb_Some in Hattr. split; [|auto].
  apply in_flat_map in Hin as [c [_ Hc]]. now apply (iter_tag t c).
Qed.

Lemma descendant_match (e : Element) (t : string) (x : Element) :
  In x (findall e [Self; Descendant t]) -> tag x = t.
Proof.
  unfold findall. cbn [fold_left select flat_map].
  rewrite List.app_nil_r. intros H.
  apply in_flat_map in H as [c [_ Hc]]. now apply (iter_tag t c).
Qed.

End SelectorFacts.

(** X15.  The summary resolver reads the date only from a
    PubMedPubDate node whose PubStatus attribute is "pubmed": nodes
    of any other status are never used, and without such a node the
    date is absent.  The node the full-text resolver reads is always
    a pub-date node. *)
Theorem date_nodes_are_date_elements (xml_element : Element) :
  (forall node,
      PubMedArticle.selected_date_node xml_element = Some node ->
      tag node = "PubMedPubDate" /\ get node "PubStatus" = Some "pubmed")
  /\ ((forall x, In x (findall xml_element [Self; Descendant "PubMedPubDate"]) ->
                 get x "PubStatus" <> Some "pubmed") ->
      PubMedArticle._extractPublicationDate xml_element = Ok None)
  /\ (forall node,
         PMCArticle.selected_date_node xml_element = Some node ->
         tag node = "pub-date").
Proof.
  split; [|split].
  - intros node H. apply find_Some_in in H.
    apply descendant_attr_match in H as [Ht [Ha _]]. auto.
  - intros Hnone.
    assert (Hsel : PubMedArticle.selected_date_node xml_element = None).
    { unfold PubMedArticle.selected_date_node.
      destruct (find xml_element _) as [node|] eqn:E; [|reflexivity].
      apply find_Some_in in E.
      apply descendant_attr_match in E as [_ [Ha Hin]].
      exfalso. exact (Hnone node Hin Ha). }
    unfold PubMedArticle._extractPublicationDate. cbv zeta.
    rewrite Hsel. reflexivity.
  - intros node H.
    pose proof (selected_date_node_cases xml_element) as Hsel.
    cbv zeta in Hsel. rewrite Hsel in H.
    set (dates := findall xml_element [Self; Descendant "pub-date"]) in *.
    assert (Hin : In node dates).
    { destruct (last (map Some (filter PMCArticle.is_epub dates)) None)
        as [d|] eqn:El.
      - injection H as <-. apply last_map_Some_in in El.
        now apply filter_In in El as [Hin _].
      - destruct (hd_error (filter is_electronic_pub dates)) as [d|] eqn:Eh.
        + injection H as <-.
          now apply hd_error_filter_Some in Eh as [Hin _].
        + destruct dates as [|d ds]; [discriminate|].
          injection H as <-. now left. }
    now apply descendant_match in Hin.
Qed.

Lemma date_nodes_are_date_elements_witness :
  PubMedArticle._extractPublicationDate
    (Samples.node "PubmedArticle"
       [mkElement "PubMedPubDate" [("PubStatus", "entrez")] None
          [Samples.leaf "Year" "2020"] None])
  = Ok None.
Proof.
  destruct (date_nodes_are_date_elements
              (Samples.node "PubmedArticle"
                 [mkElement "PubMedPubDate" [("PubStatus", "entrez")] None
                    [Samples.leaf "Year" "2020"] None])) as [_ [H _]].
  apply H. intros x [<-|[]]. discriminate.
Defined.
